(** * Keithley2600: the command-translation layer of keithley2600/Keithley2600.py

    The class [Keithley2600] wraps a message-based transport (a pyvisa
    [Resource]) and maps property reads and writes onto text commands.
    The development has three layers:

    - [Py]: the Python built-ins the class relies on ([str.strip],
      [str.split], [float], [int], [bool], [str] and f-string rendering);
    - the effect layer: exceptions, the chronological log of calls made on
      the transport and on the clock, and a state-and-error monad over it;
    - [K2600]: the methods and properties of the class, one definition per
      Python definition, followed by the properties proved about them. *)

From Stdlib Require Import ZArith List String Ascii Bool Lia.
From Stdlib Require Import Decimal DecimalString DecimalZ DecimalPos.
From Stdlib Require Import Floats.SpecFloat.
Import ListNotations.

Local Open Scope string_scope.
Local Open Scope Z_scope.

(** ** Python built-ins *)

Module Py.

(** Python strings are modelled as sequences of code points below 256. *)

Definition code (c : ascii) : Z := Z.of_nat (nat_of_ascii c).

(** [str.isspace] on one code point below 256: TAB LF VT FF CR, FS GS RS US,
    SPACE, NEL and NBSP. *)
Definition is_space (c : ascii) : bool :=
  let n := code c in
  ((9 <=? n) && (n <=? 13)) || ((28 <=? n) && (n <=? 32))
  || (n =? 133) || (n =? 160).

Definition is_digit (c : ascii) : bool :=
  let n := code c in (48 <=? n) && (n <=? 57).

Definition digit_val (c : ascii) : Z := code c - 48.

Definition is_empty (s : string) : bool :=
  match s with EmptyString => true | String _ _ => false end.

Fixpoint lstrip (s : string) : string :=
  match s with
  | EmptyString => EmptyString
  | String c r => if is_space c then lstrip r else s
  end.

Fixpoint rstrip (s : string) : string :=
  match s with
  | EmptyString => EmptyString
  | String c r =>
      let r' := rstrip r in
      if is_space c && is_empty r' then EmptyString else String c r'
  end.

(** [s.strip()] *)
Definition strip (s : string) : string := rstrip (lstrip s).

(** [s.split(sep)] for a one-character separator: never the empty list. *)
Fixpoint split (sep : ascii) (s : string) : list string :=
  match s with
  | EmptyString => [EmptyString]
  | String c r =>
      if Ascii.eqb c sep then EmptyString :: split sep r
      else match split sep r with
           | h :: t => String c h :: t
           | [] => [String c EmptyString]
           end
  end.

(** *** Floats: IEEE 754 binary64, as [spec_float] with [prec = 53] *)

Definition prec : Z := 53.
Definition emax : Z := 1024.

Definition float := spec_float.

(** The double nearest (ties to even) to [(-1)^sgn * D * 10^E]. *)
Definition round_decimal (sgn : bool) (D E : Z) : float :=
  match D with
  | Zpos d =>
      if 0 <=? E then
        match Zpos d * 10 ^ E with
        | Zpos p => binary_round prec emax sgn p 0
        | _ => S754_zero sgn
        end
      else
        let '(q, e, l) := SFdiv_core_binary prec emax (Zpos d) 0 (10 ^ (- E)) 0 in
        binary_round_aux prec emax sgn q e l
  | _ => S754_zero sgn
  end.

(** Underscores in numeric literals (PEP 515): one underscore is allowed
    between two digits, nowhere else; they are removed before parsing. *)
Fixpoint strip_underscores (prev : ascii) (s : string) : option string :=
  match s with
  | EmptyString => if Ascii.eqb prev "_" then None else Some EmptyString
  | String c r =>
      if Ascii.eqb c "_" then
        if is_digit prev then strip_underscores c r else None
      else if Ascii.eqb prev "_" && negb (is_digit c) then None
      else option_map (String c) (strip_underscores c r)
  end.

Definition lower (c : ascii) : ascii :=
  let n := code c in
  if (65 <=? n) && (n <=? 90) then ascii_of_nat (Z.to_nat (n + 32)) else c.

Fixpoint lower_string (s : string) : string :=
  match s with
  | EmptyString => EmptyString
  | String c r => String (lower c) (lower_string r)
  end.

(** Reads a run of decimal digits: the accumulated value, the number of
    digits read and the rest of the string. *)
Fixpoint read_digits (acc cnt : Z) (s : string) : Z * Z * string :=
  match s with
  | EmptyString => (acc, cnt, s)
  | String c r =>
      if is_digit c then read_digits (10 * acc + digit_val c) (cnt + 1) r
      else (acc, cnt, s)
  end.

(** An optional sign: [true] for a minus. *)
Definition read_sign (s : string) : bool * string :=
  match s with
  | String "-" r => (true, r)
  | String "+" r => (false, r)
  | _ => (false, s)
  end.

(** [digits [. digits] [(e|E) [+|-] digits]] with at least one mantissa
    digit, consuming the whole string: the decimal mantissa and exponent. *)
Definition parse_decimal (s : string) : option (Z * Z) :=
  let '(ip, n1, r1) := read_digits 0 0 s in
  let '(D, n2, r2) :=
    match r1 with
    | String "." r => read_digits ip 0 r
    | _ => (ip, 0, r1)
    end in
  if n1 + n2 =? 0 then None
  else
    match r2 with
    | EmptyString => Some (D, - n2)
    | String c r3 =>
        if Ascii.eqb (lower c) "e" then
          let '(sg, r4) := read_sign r3 in
          let '(ex, n3, r5) := read_digits 0 0 r4 in
          if (n3 =? 0) || negb (is_empty r5) then None
          else Some (D, (if sg then - ex else ex) - n2)
        else None
    end.

(** [float(s)] for a string [s]: [None] stands for [ValueError]. *)
Definition float_of_string (s : string) : option float :=
  match strip_underscores " " (strip s) with
  | None => None
  | Some body =>
      let '(sg, r) := read_sign body in
      let l := lower_string r in
      if String.eqb l "inf" || String.eqb l "infinity" then Some (S754_infinity sg)
      else if String.eqb l "nan" then Some S754_nan
      else match parse_decimal r with
           | Some (D, E) => Some (round_decimal sg D E)
           | None => None
           end
  end.

(** [int(x)] for a float [x]: truncation towards zero; [None] stands for
    the exception raised on an infinity ([OverflowError]) or a NaN
    ([ValueError]), told apart where the exception is raised. *)
Definition trunc (s : bool) (m : positive) (e : Z) : Z :=
  let a := match e with
           | Zneg k => Z.shiftr (Zpos m) (Zpos k)
           | _ => Z.shiftl (Zpos m) e
           end in
  if s then - a else a.

Definition int_of_float (x : float) : option Z :=
  match x with
  | S754_zero _ => Some 0
  | S754_finite s m e => Some (trunc s m e)
  | S754_infinity _ | S754_nan => None
  end.

(** [str(z)] for an int [z]: the signed decimal numeral. *)
Definition str_of_int (z : Z) : string := NilZero.string_of_int (Z.to_int z).

(** *** [repr] of a float: the shortest decimal that reads back as the float *)

Definition nb_digits10 (p : positive) : Z :=
  Z.of_nat (Decimal.nb_digits (Pos.to_uint p)).

(** [num / den] rounded to the nearest integer, ties to even. *)
Definition div_nearest_even (num den : Z) : Z :=
  let '(q, r) := Z.div_eucl num den in
  match 2 * r ?= den with
  | Lt => q
  | Gt => q + 1
  | Eq => if Z.even q then q else q + 1
  end.

(** [num / den] scaled by [10^(-p)], as a fraction. *)
Definition scale10 (num den p : Z) : Z * Z :=
  if 0 <=? p then (num, den * 10 ^ p) else (num * 10 ^ (- p), den).

(** [floor (log10 (num / den))] for positive [num] and [den]. *)
Definition floor_log10 (num den : positive) : Z :=
  let est := nb_digits10 num - nb_digits10 den in
  let '(n, d) := scale10 (Zpos num) (Zpos den) est in
  if d <=? n then est else est - 1.

(** The value [num / den] rounded to [n] significant decimal digits:
    the digits as an integer [dn] and the exponent [p], for [dn * 10^p]. *)
Definition round_sig (num den : positive) (n : Z) : Z * Z :=
  let p := floor_log10 num den - (n - 1) in
  let '(a, b) := scale10 (Zpos num) (Zpos den) p in
  let dn := div_nearest_even a b in
  if dn =? 10 ^ n then (10 ^ (n - 1), p + 1) else (dn, p).

(** Tries [n], [n+1], ... significant digits ([fuel] attempts) until the
    rounded decimal reads back as the float [S754_finite false m e]. *)
Fixpoint shortest_digits (fuel : nat) (n : Z) (m : positive) (e : Z)
    (num den : positive) : Z * Z :=
  let '(dn, p) := round_sig num den n in
  match fuel with
  | O => (dn, p)
  | S fuel' =>
      if SFeqb (round_decimal false dn p) (S754_finite false m e) then (dn, p)
      else shortest_digits fuel' (n + 1) m e num den
  end.

Fixpoint zeros (n : nat) : string :=
  match n with O => EmptyString | S k => String "0" (zeros k) end.

Definition str_of_pos_digits (z : Z) : string :=
  NilZero.string_of_uint (N.to_uint (Z.to_N z)).

(** The exponent of the scientific notation: a sign and at least two digits. *)
Definition exponent_text (x : Z) : string :=
  let a := str_of_pos_digits (Z.abs x) in
  (if x <? 0 then "-" else "+") ++ (if Z.abs x <? 10 then "0" else "") ++ a.

(** [repr] lays the digits [ds] out with the decimal point after the first
    [decpt] digits: positional notation when [-4 < decpt <= 16], scientific
    otherwise. *)
Definition layout (ds : string) (decpt : Z) : string :=
  let n := Z.of_nat (String.length ds) in
  if (-4 <? decpt) && (decpt <=? 16) then
    if decpt <=? 0 then "0." ++ zeros (Z.to_nat (- decpt)) ++ ds
    else if n <=? decpt then ds ++ zeros (Z.to_nat (decpt - n)) ++ ".0"
    else substring 0 (Z.to_nat decpt) ds ++ "."
         ++ substring (Z.to_nat decpt) (Z.to_nat (n - decpt)) ds
  else
    substring 0 1 ds
    ++ (if 1 <? n then "." ++ substring 1 (Z.to_nat (n - 1)) ds else "")
    ++ "e" ++ exponent_text (decpt - 1).

(** [repr(x)] (and [str(x)]) for a float [x]. *)
Definition repr_of_float (x : float) : string :=
  match x with
  | S754_nan => "nan"
  | S754_infinity s => if s then "-inf" else "inf"
  | S754_zero s => if s then "-0.0" else "0.0"
  | S754_finite s m e =>
      let '(num, den) :=
        match e with
        | Zneg k => (m, Pos.pow 2 k)
        | Zpos k => (Pos.mul m (Pos.pow 2 k), 1%positive)
        | Z0 => (m, 1%positive)
        end in
      let '(dn, p) := shortest_digits 16 1 m e num den in
      let ds := str_of_pos_digits dn in
      (if s then "-" else "") ++ layout ds (p + Z.of_nat (String.length ds))
  end.

(** [int(s)] for a string [s] in base 10: surrounding whitespace and
    single underscores between digits are accepted; [None] stands for
    [ValueError]. *)
Definition int_of_string (s : string) : option Z :=
  match strip_underscores " " (strip s) with
  | None => None
  | Some body =>
      let '(sg, r) := read_sign body in
      let '(z, n, rest) := read_digits 0 0 r in
      if (n =? 0) || negb (is_empty rest) then None
      else Some (if sg then - z else z)
  end.

End Py.

(** ** Effects: exceptions, the log of calls, the monad *)

Inductive exn : Type :=
  | ValueError
  | IndexError
  | OverflowError
  | VisaIOError (status : Z).

(** The Python values that flow through the accessors. *)
Inductive pyvalue : Type :=
  | PyBool (b : bool)
  | PyInt (z : Z)
  | PyFloat (x : Py.float)
  | PyStr (s : string).

(** One entry per call made on the transport ([write], [query], [read],
    [close]) or on the clock ([time.sleep]), in the order of the calls.
    A call is logged whether it returns or raises. *)
Inductive call : Type :=
  | Write (cmd : string)
  | Query (cmd : string)
  | Read
  | Close
  | Sleep (secs : Py.float).

Definition log := list call.

(** The transport collaborator (a pyvisa [Resource]): what each call does is
    a function of the calls made so far. [Some e] and [inl e] stand for
    raising [e]. *)
Record Resource : Type := {
  write_result : log -> string -> option exn;
  query_result : log -> string -> exn + string;
  read_result : log -> exn + string;
  close_result : log -> option exn }.

(** [time.sleep]: whether it raises on a given duration. *)
Definition Clock := log -> Py.float -> option exn.

Definition result (A : Type) : Type := (exn + A)%type.

Definition M (A : Type) : Type := log -> result A * log.

Definition ret {A} (a : A) : M A := fun l => (inr a, l).

Definition raise {A} (e : exn) : M A := fun l => (inl e, l).

Definition bind {A B} (m : M A) (k : A -> M B) : M B :=
  fun l =>
    match m l with
    | (inr a, l') => k a l'
    | (inl e, l') => (inl e, l')
    end.

Declare Scope py_scope.
Delimit Scope py_scope with py.
Notation "x <- m ;; k" := (bind m (fun x => k))
  (at level 61, m at next level, right associativity) : py_scope.
Notation "m ;; k" := (bind m (fun _ => k))
  (at level 61, right associativity) : py_scope.
Local Open Scope py_scope.

Definition unit_outcome (o : option exn) : result unit :=
  match o with Some e => inl e | None => inr tt end.

(** [dev.write(cmd)] *)
Definition write (dev : Resource) (cmd : string) : M unit :=
  fun l => (unit_outcome (write_result dev l cmd), (l ++ [Write cmd])%list).

(** [dev.query(cmd)] *)
Definition query (dev : Resource) (cmd : string) : M string :=
  fun l => (query_result dev l cmd, (l ++ [Query cmd])%list).

(** [dev.read()] *)
Definition read (dev : Resource) : M string :=
  fun l => (read_result dev l, (l ++ [Read])%list).

(** [dev.close()] *)
Definition close (dev : Resource) : M unit :=
  fun l => (unit_outcome (close_result dev l), (l ++ [Close])%list).

(** [time.sleep(secs)] *)
Definition sleep (clock : Clock) (secs : Py.float) : M unit :=
  fun l => (unit_outcome (clock l secs), (l ++ [Sleep secs])%list).

(** The built-ins, with their exceptions. *)

Definition float_ (s : string) : M Py.float :=
  match Py.float_of_string s with
  | Some x => ret x
  | None => raise ValueError
  end.

Definition int_float (x : Py.float) : M Z :=
  match x with
  | S754_infinity _ => raise OverflowError
  | S754_nan => raise ValueError
  | _ => match Py.int_of_float x with Some z => ret z | None => raise ValueError end
  end.

(** [int(v)] *)
Definition int_ (v : pyvalue) : M Z :=
  match v with
  | PyBool b => ret (Z.b2z b)
  | PyInt z => ret z
  | PyFloat x => int_float x
  | PyStr s =>
      match Py.int_of_string s with
      | Some z => ret z
      | None => raise ValueError
      end
  end.

(** [bool(z)] for an int [z] *)
Definition bool_ (z : Z) : bool := negb (z =? 0).

(** [str(v)], which is also what [{v}] renders in an f-string. *)
Definition str (v : pyvalue) : string :=
  match v with
  | PyBool b => if b then "True" else "False"
  | PyInt z => Py.str_of_int z
  | PyFloat x => Py.repr_of_float x
  | PyStr s => s
  end.

(** [xs[i]] *)
Definition getitem (xs : list string) (i : nat) : M string :=
  match nth_error xs i with
  | Some x => ret x
  | None => raise IndexError
  end.

(** A float literal of the source. *)
Definition literal (s : string) : Py.float :=
  match Py.float_of_string s with Some x => x | None => S754_nan end.

(** ** The class [Keithley2600] *)

Module K2600.

(** The instance holds one attribute, [smu], bound once in [__init__].
    [delay] is a property of the class, so [self.delay] never names an
    instance attribute: reading it runs the getter, assigning it the
    setter. *)
Record Keithley2600 : Type := { smu : Resource }.

(** *** Methods that return a measurement *)

Definition measure_resistance (self : Keithley2600) : M Py.float :=
  response <- query (smu self) "print(smua.measure.r())" ;;
  float_ (Py.strip response).

Definition measure_power (self : Keithley2600) : M Py.float :=
  response <- query (smu self) "print(smua.measure.p())" ;;
  float_ (Py.strip response).

Definition reset_device (self : Keithley2600) : M unit :=
  write (smu self) "smua.reset()".

Definition device_id (self : Keithley2600) : M string :=
  write (smu self) "print(smua.idn())" ;;
  read (smu self).

(** *** Properties: getters *)

Definition output (self : Keithley2600) : M bool :=
  state <- query (smu self) "print(smua.source.output)" ;;
  x <- float_ (Py.strip state) ;;
  z <- int_float x ;;
  ret (bool_ z).

Definition source_function (self : Keithley2600) : M string :=
  response <- query (smu self) "print(smua.source.func)" ;;
  ret response.

Definition nplc (self : Keithley2600) : M Py.float :=
  response <- query (smu self) "print(smua.measure.nplc)" ;;
  float_ (Py.strip response).

Definition delay (self : Keithley2600) : M Py.float :=
  response <- query (smu self) "print(smua.measure.delay)" ;;
  float_ (Py.strip response).

Definition range_i (self : Keithley2600) : M Py.float :=
  response <- query (smu self) "print(smua.measure.rangei)" ;;
  float_ (Py.strip response).

Definition range_v (self : Keithley2600) : M Py.float :=
  response <- query (smu self) "print(smua.measure.rangev)" ;;
  float_ (Py.strip response).

Definition autorange_i (self : Keithley2600) : M bool :=
  response <- query (smu self) "print(smua.measure.autorangei)" ;;
  x <- float_ (Py.strip response) ;;
  z <- int_float x ;;
  ret (bool_ z).

Definition autorange_v (self : Keithley2600) : M bool :=
  response <- query (smu self) "print(smua.measure.autorangev)" ;;
  x <- float_ (Py.strip response) ;;
  z <- int_float x ;;
  ret (bool_ z).

Definition level_v (self : Keithley2600) : M Py.float :=
  response <- query (smu self) "print(smua.source.levelv)" ;;
  float_ (Py.strip response).

Definition level_i (self : Keithley2600) : M Py.float :=
  response <- query (smu self) "print(smua.source.leveli)" ;;
  float_ (Py.strip response).

Definition limit_i (self : Keithley2600) : M Py.float :=
  response <- query (smu self) "print(smua.source.limiti)" ;;
  float_ (Py.strip response).

Definition limit_v (self : Keithley2600) : M Py.float :=
  response <- query (smu self) "print(smua.source.limitv)" ;;
  float_ (Py.strip response).

(** *** Properties: setters *)

Definition output_setter (self : Keithley2600) (flag : pyvalue) : M unit :=
  z <- int_ flag ;;
  write (smu self) ("smua.source.output = " ++ Py.str_of_int z).

Definition source_function_setter (self : Keithley2600) (func : pyvalue) : M unit :=
  write (smu self) ("smua.source.func = " ++ str func).

Definition nplc_setter (self : Keithley2600) (NPLC : pyvalue) : M unit :=
  write (smu self) ("smua.measure.nplc = " ++ str NPLC).

Definition delay_setter (self : Keithley2600) (delay : pyvalue) : M unit :=
  write (smu self) ("smua.measure.delay = " ++ str delay).

Definition range_i_setter (self : Keithley2600) (i_range : pyvalue) : M unit :=
  write (smu self) ("smua.measure.rangei = " ++ str i_range).

Definition range_v_setter (self : Keithley2600) (v_range : pyvalue) : M unit :=
  write (smu self) ("smua.measure.rangev = " ++ str v_range).

Definition autorange_i_setter (self : Keithley2600) (autorange : pyvalue) : M unit :=
  write (smu self) ("smua.measure.autorangei = " ++ str autorange).

Definition autorange_v_setter (self : Keithley2600) (autorange : pyvalue) : M unit :=
  write (smu self) ("smua.measure.autorangev = " ++ str autorange).

Definition level_v_setter (self : Keithley2600) (v_level : pyvalue) : M unit :=
  write (smu self) ("smua.source.levelv = " ++ str v_level).

Definition level_i_setter (self : Keithley2600) (i_level : pyvalue) : M unit :=
  write (smu self) ("smua.source.leveli = " ++ str i_level).

Definition limit_i_setter (self : Keithley2600) (i_limit : pyvalue) : M unit :=
  write (smu self) ("smua.source.limiti = " ++ str i_limit).

Definition limit_v_setter (self : Keithley2600) (v_limit : pyvalue) : M unit :=
  write (smu self) ("smua.source.limitv = " ++ str v_limit).

(** *** The paired measurement *)

Definition measure_iv (clock : Clock) (self : Keithley2600)
    : M (Py.float * Py.float) :=
  write (smu self) "ireading, vreading = smua.measure.iv()" ;;
  secs <- delay self ;;
  sleep clock secs ;;
  text <- query (smu self) "printnumber(ireading,vreading)" ;;
  let response := Py.split "," text in
  r0 <- getitem response 0 ;;
  i <- float_ r0 ;;
  r1 <- getitem response 1 ;;
  v <- float_ r1 ;;
  ret (i, v).

(** *** Setup routines *)

Definition default_setup (self : Keithley2600) : M unit :=
  source_function_setter self (PyInt 1) ;;
  level_v_setter self (PyInt 0) ;;
  autorange_i_setter self (PyInt 1) ;;
  autorange_v_setter self (PyInt 1) ;;
  output_setter self (PyBool false).

Definition setup_for_resistance_measurement (self : Keithley2600) : M unit :=
  write (smu self) "smua.measure.r(smua.nvbuffer1)" ;;
  reset_device self ;;
  source_function_setter self (PyInt 0) ;;
  level_i_setter self (PyFloat (literal "1e-3")) ;;
  autorange_v_setter self (PyInt 1) ;;
  nplc_setter self (PyInt 5) ;;
  delay_setter self (PyFloat (literal "0.1")) ;;
  range_v_setter self (PyInt 20) ;;
  range_i_setter self (PyFloat (literal "1e-3")).

Definition setup_for_IV_measurement (self : Keithley2600)
    (iLimit NPLC : pyvalue) : M unit :=
  reset_device self ;;
  source_function_setter self (PyInt 1) ;;
  level_v_setter self (PyInt 0) ;;
  autorange_i_setter self (PyInt 1) ;;
  autorange_v_setter self (PyInt 1) ;;
  limit_i_setter self iLimit ;;
  nplc_setter self NPLC.

(** *** Construction and destruction *)

(** The default of the parameter [delay] of [__init__]. *)
Definition default_delay : pyvalue := PyFloat (literal "0.1").

Definition __init__ (device : Resource) (delay : pyvalue) : M Keithley2600 :=
  let self := {| smu := device |} in
  reset_device self ;;
  default_setup self ;;
  delay_setter self delay ;;
  ret self.

Definition __del__ (self : Keithley2600) : M unit :=
  output_setter self (PyBool false) ;;
  reset_device self ;;
  close (smu self).

End K2600.

Import K2600.

(** ** Attribute access by name, and the vocabulary of the instrument *)

Inductive property : Type :=
  | Output | SourceFunction | Nplc | Delay | RangeI | RangeV
  | AutorangeI | AutorangeV | LevelV | LevelI | LimitI | LimitV.

(** [getattr(self, name)] on the twelve properties. *)
Definition getattr (p : property) (self : Keithley2600) : M pyvalue :=
  match p with
  | Output => b <- output self ;; ret (PyBool b)
  | SourceFunction => s <- source_function self ;; ret (PyStr s)
  | Nplc => x <- nplc self ;; ret (PyFloat x)
  | Delay => x <- delay self ;; ret (PyFloat x)
  | RangeI => x <- range_i self ;; ret (PyFloat x)
  | RangeV => x <- range_v self ;; ret (PyFloat x)
  | AutorangeI => b <- autorange_i self ;; ret (PyBool b)
  | AutorangeV => b <- autorange_v self ;; ret (PyBool b)
  | LevelV => x <- level_v self ;; ret (PyFloat x)
  | LevelI => x <- level_i self ;; ret (PyFloat x)
  | LimitI => x <- limit_i self ;; ret (PyFloat x)
  | LimitV => x <- limit_v self ;; ret (PyFloat x)
  end.

(** [setattr(self, name, v)] on the twelve properties. *)
Definition setattr (p : property) (self : Keithley2600) (v : pyvalue) : M unit :=
  match p with
  | Output => output_setter self v
  | SourceFunction => source_function_setter self v
  | Nplc => nplc_setter self v
  | Delay => delay_setter self v
  | RangeI => range_i_setter self v
  | RangeV => range_v_setter self v
  | AutorangeI => autorange_i_setter self v
  | AutorangeV => autorange_v_setter self v
  | LevelV => level_v_setter self v
  | LevelI => level_i_setter self v
  | LimitI => limit_i_setter self v
  | LimitV => limit_v_setter self v
  end.

(** The instrument attribute behind each property. *)
Definition property_path (p : property) : string :=
  match p with
  | Output => "smua.source.output"
  | SourceFunction => "smua.source.func"
  | Nplc => "smua.measure.nplc"
  | Delay => "smua.measure.delay"
  | RangeI => "smua.measure.rangei"
  | RangeV => "smua.measure.rangev"
  | AutorangeI => "smua.measure.autorangei"
  | AutorangeV => "smua.measure.autorangev"
  | LevelV => "smua.source.levelv"
  | LevelI => "smua.source.leveli"
  | LimitI => "smua.source.limiti"
  | LimitV => "smua.source.limitv"
  end.

Definition query_command (p : property) : string :=
  "print(" ++ property_path p ++ ")".

Definition assignment (p : property) (text : string) : string :=
  property_path p ++ " = " ++ text.

(** How a getter reads the response: as a float, as a flag, or not at all. *)
Inductive reading : Type := AsFloat | AsFlag | AsText.

Definition reading_of (p : property) : reading :=
  match p with
  | Output | AutorangeI | AutorangeV => AsFlag
  | SourceFunction => AsText
  | _ => AsFloat
  end.

(** The value, or the exception, a response yields under each reading. *)
Definition decode (k : reading) (response : string) : result pyvalue :=
  match k with
  | AsText => inr (PyStr response)
  | AsFloat =>
      match Py.float_of_string (Py.strip response) with
      | Some x => inr (PyFloat x)
      | None => inl ValueError
      end
  | AsFlag =>
      match Py.float_of_string (Py.strip response) with
      | None => inl ValueError
      | Some (S754_infinity _) => inl OverflowError
      | Some S754_nan => inl ValueError
      | Some (S754_zero _) => inr (PyBool false)
      | Some (S754_finite s m e) => inr (PyBool (negb (Py.trunc s m e =? 0)))
      end
  end.

(** The text a setter puts after the equals sign: [output] converts its
    flag with [int] first, every other setter renders the argument as is. *)
Definition rendering (p : property) (v : pyvalue) : result string :=
  match p with
  | Output =>
      match v with
      | PyBool b => inr (if b then "1" else "0")
      | PyInt z => inr (Py.str_of_int z)
      | PyFloat (S754_zero _) => inr "0"
      | PyFloat (S754_finite s m e) => inr (Py.str_of_int (Py.trunc s m e))
      | PyFloat (S754_infinity _) => inl OverflowError
      | PyFloat S754_nan => inl ValueError
      | PyStr s =>
          match Py.int_of_string s with
          | Some z => inr (Py.str_of_int z)
          | None => inl ValueError
          end
      end
  | _ => inr (str v)
  end.

(** ** Transports and clocks used as concrete inputs *)

(** A transport that accepts every call and answers each query from a
    table, as a test double does. *)
Definition mock (answer : string -> string) : Resource :=
  {| write_result := fun _ _ => None;
     query_result := fun _ cmd => inr (answer cmd);
     read_result := fun _ => inr "Keithley Instruments Inc., Model 2602B";
     close_result := fun _ => None |}.

(** An instrument on the bench: the delay is 0.1 s, the last paired
    reading is 1 mA at 2.5 V, every other attribute reads 5. *)
Definition bench (cmd : string) : string :=
  if String.eqb cmd "printnumber(ireading,vreading)" then "1.0e-3,2.5"
  else if String.eqb cmd "print(smua.measure.delay)" then "1.00000e-01"
  else "5.000000E+00" ++ String "010" EmptyString.

(** VI_ERROR_TMO, the status of a timed-out call. *)
Definition timeout : exn := VisaIOError (-1073807339).

(** A transport whose first call times out and which works afterwards. *)
Definition first_call_times_out : Resource :=
  {| write_result := fun l _ => match l with [] => Some timeout | _ => None end;
     query_result := fun l _ => match l with [] => inl timeout | _ => inr "0" end;
     read_result := fun l => match l with [] => inl timeout | _ => inr "" end;
     close_result := fun l => match l with [] => Some timeout | _ => None end |}.

(** [time.sleep] rejects a NaN and a negative duration with [ValueError]
    and an infinite one with [OverflowError]. *)
Definition wall_clock : Clock :=
  fun _ secs =>
    match secs with
    | S754_nan => Some ValueError
    | S754_infinity _ => Some OverflowError
    | S754_finite true _ _ => Some ValueError
    | _ => None
    end.

(** ** The setup routines as lists of primitive steps *)

(** A primitive step: [reset_device()] or the assignment of a property. *)
Inductive primitive : Type :=
  | Reset
  | Assign (p : property) (v : pyvalue).

Definition run_primitive (self : Keithley2600) (step : primitive) : M unit :=
  match step with
  | Reset => reset_device self
  | Assign p v => setattr p self v
  end.

Fixpoint run_primitives (self : Keithley2600) (steps : list primitive) : M unit :=
  match steps with
  | [] => ret tt
  | step :: rest => run_primitive self step ;; run_primitives self rest
  end.

(** The configuration named in the docstring of
    [setup_for_resistance_measurement]. *)
Definition resistance_steps : list primitive :=
  [ Reset;
    Assign SourceFunction (PyInt 0);
    Assign LevelI (PyFloat (literal "1e-3"));
    Assign AutorangeV (PyInt 1);
    Assign Nplc (PyInt 5);
    Assign Delay (PyFloat (literal "0.1"));
    Assign RangeV (PyInt 20);
    Assign RangeI (PyFloat (literal "1e-3")) ].

(** The configuration named in the docstring of [setup_for_IV_measurement]. *)
Definition iv_steps (iLimit NPLC : pyvalue) : list primitive :=
  [ Reset;
    Assign SourceFunction (PyInt 1);
    Assign LevelV (PyInt 0);
    Assign AutorangeI (PyInt 1);
    Assign AutorangeV (PyInt 1);
    Assign LimitI iLimit;
    Assign Nplc NPLC ].

(** ** Vocabulary of the properties proved below *)

(** The value of a decimal numeral read after the digits worth [acc]. *)
Fixpoint decimal_value (acc : Z) (d : Decimal.uint) : Z :=
  match d with
  | Nil => acc
  | D0 r => decimal_value (10 * acc) r
  | D1 r => decimal_value (10 * acc + 1) r
  | D2 r => decimal_value (10 * acc + 2) r
  | D3 r => decimal_value (10 * acc + 3) r
  | D4 r => decimal_value (10 * acc + 4) r
  | D5 r => decimal_value (10 * acc + 5) r
  | D6 r => decimal_value (10 * acc + 6) r
  | D7 r => decimal_value (10 * acc + 7) r
  | D8 r => decimal_value (10 * acc + 8) r
  | D9 r => decimal_value (10 * acc + 9) r
  end.

Fixpoint all_digits (s : string) : bool :=
  match s with
  | EmptyString => true
  | String c r => Py.is_digit c && all_digits r
  end.

(** The calls a primitive step can make: the reset command, or the
    assignment of a property. *)
Definition primitive_call (c : call) : Prop :=
  c = Write "smua.reset()"
  \/ exists p text, c = Write (property_path p ++ " = " ++ text).

Definition is_query (c : call) : bool :=
  match c with Query _ => true | _ => false end.


(** [|x| < 1] for a float: zero, or [m * 2^e] with [m < 2^(-e)]. *)
Definition abs_below_one (x : Py.float) : bool :=
  match x with
  | S754_zero _ => true
  | S754_finite _ m e => (e <? 0) && (Zpos m <? 2 ^ (- e))
  | _ => false
  end.

(** What [measure_iv] makes of the response to the paired query: the split
    at the commas, then the first token, then the second. *)
Definition pair_outcome (text : string) : result (Py.float * Py.float) :=
  match Py.split "," text with
  | [] => inl IndexError
  | t0 :: rest =>
      match Py.float_of_string t0 with
      | None => inl ValueError
      | Some i =>
          match rest with
          | [] => inl IndexError
          | t1 :: _ =>
              match Py.float_of_string t1 with
              | None => inl ValueError
              | Some v => inr (i, v)
              end
          end
      end
  end.

(** The four calls of a paired measurement that waits [secs]. *)
Definition iv_calls (secs : Py.float) : log :=
  [ Write "ireading, vreading = smua.measure.iv()";
    Query "print(smua.measure.delay)";
    Sleep secs;
    Query "printnumber(ireading,vreading)" ].

(** The calls of a construction with a given [delay]. *)
Definition init_calls (delay : pyvalue) : log :=
  [ Write "smua.reset()";
    Write "smua.source.func = 1";
    Write "smua.source.levelv = 0";
    Write "smua.measure.autorangei = 1";
    Write "smua.measure.autorangev = 1";
    Write "smua.source.output = 0";
    Write ("smua.measure.delay = " ++ str delay) ].

(** The canned response of the specification: [5.000000E+00] and a newline. *)
Definition canned : string := "5.000000E+00" ++ String "010" EmptyString.



(** An instrument that remembers the measure delay it was last assigned:
    the query of the delay answers the text of the latest
    [smua.measure.delay = ...] write of the log, 0 before any. *)
Fixpoint strip_prefix (pre s : string) : option string :=
  match pre, s with
  | EmptyString, _ => Some s
  | String a pre', String b s' =>
      if Ascii.eqb a b then strip_prefix pre' s' else None
  | String _ _, EmptyString => None
  end.

Fixpoint last_delay (l : log) (current : string) : string :=
  match l with
  | [] => current
  | Write cmd :: rest =>
      match strip_prefix "smua.measure.delay = " cmd with
      | Some text => last_delay rest text
      | None => last_delay rest current
      end
  | _ :: rest => last_delay rest current
  end.

Definition instrument : Resource :=
  {| write_result := fun _ _ => None;
     query_result := fun l cmd =>
       if String.eqb cmd "print(smua.measure.delay)" then inr (last_delay l "0")
       else if String.eqb cmd "printnumber(ireading,vreading)" then inr "1.0e-3,2.5"
       else inr canned;
     read_result := fun _ => inr "Keithley Instruments Inc., Model 2602B";
     close_result := fun _ => None |}.

(** ** The script at the bottom of the module *)

(** [pyvisa.ResourceManager()], as far as the script uses it: the names
    [list_resources()] returns and what [open_resource(name)] does. *)
Record ResourceManager : Type := {
  list_resources : result (list string);
  open_resource : string -> result Resource }.

Definition lift {A} (r : result A) : M A := fun l => (r, l).

(** The body of [if __name__ == '__main__']. *)
Definition main (rm : ResourceManager) : M Keithley2600 :=
  devs <- lift (list_resources rm) ;;
  name <- getitem devs 0 ;;
  dev <- lift (open_resource rm name) ;;
  smu <- __init__ dev default_delay ;;
  level_i_setter smu (PyFloat (literal "1e-3")) ;;
  ret smu.

(** ** Vocabulary of the further properties *)

Fixpoint all_space (s : string) : bool :=
  match s with
  | EmptyString => true
  | String c r => Py.is_space c && all_space r
  end.

(** What the transport or the clock does with a call made after the calls
    of [l]: [Some e] when it raises [e]. *)
Definition call_outcome (dev : Resource) (clock : Clock) (l : log) (c : call)
    : option exn :=
  match c with
  | Write cmd => write_result dev l cmd
  | Query cmd =>
      match query_result dev l cmd with inl e => Some e | inr _ => None end
  | Read => match read_result dev l with inl e => Some e | inr _ => None end
  | Close => close_result dev l
  | Sleep secs => clock l secs
  end.

(** The calls [ext], made one after the other from the log [l], stop at the
    first one that raises, and [r] is then that exception. *)
Fixpoint stops_at_failure {A} (dev : Resource) (clock : Clock) (l : log)
    (ext : list call) (r : result A) : Prop :=
  match ext with
  | [] => True
  | c :: rest =>
      match call_outcome dev clock l c with
      | Some e => rest = [] /\ r = inl e
      | None => stops_at_failure dev clock (l ++ [c])%list rest r
      end
  end.

Definition fail_stop {A} (dev : Resource) (clock : Clock) (m : M A) : Prop :=
  forall l, exists ext,
    snd (m l) = (l ++ ext)%list /\ stops_at_failure dev clock l ext (fst (m l)).

(** Every call a computation makes satisfies [P]. *)
Definition only {A} (P : call -> bool) (m : M A) : Prop :=
  forall l, exists ext, snd (m l) = (l ++ ext)%list /\ forallb P ext = true.

Definition is_write (c : call) : bool :=
  match c with Write _ => true | _ => false end.

(** A command line that assigns the output anything but 0. *)
Definition enables_output (c : call) : bool :=
  match c with
  | Write cmd =>
      String.prefix "smua.source.output = " cmd
      && negb (String.eqb cmd "smua.source.output = 0")
  | _ => false
  end.


Definition is_close (c : call) : bool :=
  match c with Close => true | _ => false end.

Definition keeps_open (c : call) : bool := negb (is_close c).

(** ** The built-ins on concrete inputs *)

Example strip_examples :
  Py.strip canned = "5.000000E+00"
  /\ Py.strip "  2.5 " = "2.5"
  /\ Py.strip " " = ""
  /\ Py.strip "1 2" = "1 2".
Proof. repeat split. Qed.

Example split_examples :
  Py.split "," "1.0e-3,2.5" = ["1.0e-3"; "2.5"]
  /\ Py.split "," "" = [""]
  /\ Py.split "," "1.0" = ["1.0"]
  /\ Py.split "," "1,,2," = ["1"; ""; "2"; ""].
Proof. repeat split. Qed.

Example float_examples :
  Py.float_of_string "1.0e-3" = Some (S754_finite false 4611686018427388 (-62))
  /\ Py.float_of_string "2.5" = Some (S754_finite false 5629499534213120 (-51))
  /\ Py.float_of_string canned = Some (S754_finite false 5629499534213120 (-50))
  /\ Py.float_of_string "0.1" = Some (S754_finite false 7205759403792794 (-56))
  /\ Py.float_of_string " -0 " = Some (S754_zero true)
  /\ Py.float_of_string "1_0.5" = Py.float_of_string "10.5"
  /\ Py.float_of_string "1e400" = Some (S754_infinity false)
  /\ Py.float_of_string "4.9e-324" = Some (S754_finite false 1 (-1074))
  /\ Py.float_of_string "-Infinity" = Some (S754_infinity true)
  /\ Py.float_of_string "NaN" = Some S754_nan
  /\ Py.float_of_string "" = None
  /\ Py.float_of_string "." = None
  /\ Py.float_of_string "1e" = None
  /\ Py.float_of_string "1__0" = None
  /\ Py.float_of_string "1.0e-3,2.5" = None
  /\ Py.float_of_string "0x10" = None.
Proof. repeat split; vm_compute; reflexivity. Qed.

Example repr_examples :
  map (fun s => Py.repr_of_float (literal s))
    ["0.1"; "1e-3"; "2.5"; "5"; "1e15"; "1e16"; "1e-5"; "0.0001";
     "0.30000000000000004"; "1.7976931348623157e308"; "5e-324"; "-3.25e22"]
  = ["0.1"; "0.001"; "2.5"; "5.0"; "1000000000000000.0"; "1e+16"; "1e-05";
     "0.0001"; "0.30000000000000004"; "1.7976931348623157e+308"; "5e-324";
     "-3.25e+22"].
Proof. vm_compute. reflexivity. Qed.

Example str_examples :
  map str [PyBool true; PyBool false; PyInt 0; PyInt (-20); PyFloat (literal "1e-3");
           PyStr "smua.OUTPUT_DCVOLTS"]
  = ["True"; "False"; "0"; "-20"; "0.001"; "smua.OUTPUT_DCVOLTS"].
Proof. vm_compute. reflexivity. Qed.

(** ** Running the monad *)

Lemma bind_ok {A B} (m : M A) (k : A -> M B) l a l' :
  m l = (inr a, l') -> bind m k l = k a l'.
Proof. intros H. unfold bind. now rewrite H. Qed.

Lemma write_accepted dev cmd l :
  write_result dev l cmd = None ->
  write dev cmd l = (inr tt, (l ++ [Write cmd])%list).
Proof. intros H. unfold write. now rewrite H. Qed.

Lemma query_answered dev cmd l text :
  query_result dev l cmd = inr text ->
  query dev cmd l = (inr text, (l ++ [Query cmd])%list).
Proof. intros H. unfold query. now rewrite H. Qed.

(** A getter that reads a float: one query, then [float(response.strip())]. *)
Lemma float_getter_run dev cmd l :
  (response <- query dev cmd ;; float_ (Py.strip response)) l =
  (match query_result dev l cmd with
   | inl e => inl e
   | inr response =>
       match Py.float_of_string (Py.strip response) with
       | Some x => inr x
       | None => inl ValueError
       end
   end, (l ++ [Query cmd])%list).
Proof.
  unfold bind, query, float_.
  destruct (query_result dev l cmd) as [e | response]; [reflexivity |].
  now destruct (Py.float_of_string (Py.strip response)).
Qed.

(** ** Construction *)

Lemma init_issues_defaults_run (device : Resource) (delay : pyvalue) (l : log) :
  (forall l' cmd, write_result device l' cmd = None) ->
  __init__ device delay l = (inr {| smu := device |}, (l ++ init_calls delay)%list).
Proof.
  intros accepts.
  unfold __init__, default_setup, reset_device, delay_setter, output_setter,
    source_function_setter, level_v_setter, autorange_i_setter,
    autorange_v_setter, int_, bind, ret, write, init_calls; cbn [smu].
  repeat (rewrite accepts; cbn [unit_outcome]).
  rewrite <- !app_assoc. reflexivity.
Qed.

(** C2. On a transport that accepts the writes, [__init__] returns the
    session and issues, in this order: the device reset, then
    [smua.source.func = 1], [smua.source.levelv = 0],
    [smua.measure.autorangei = 1], [smua.measure.autorangev = 1] and
    [smua.source.output = 0], and last the measure delay. *)
Theorem init_issues_reset_then_defaults (device : Resource) (delay : pyvalue) (l : log) :
  (forall l' cmd, write_result device l' cmd = None) ->
  __init__ device delay l =
    (inr {| smu := device |},
     (l ++ [ Write "smua.reset()";
             Write "smua.source.func = 1";
             Write "smua.source.levelv = 0";
             Write "smua.measure.autorangei = 1";
             Write "smua.measure.autorangev = 1";
             Write "smua.source.output = 0";
             Write ("smua.measure.delay = " ++ str delay) ])%list).
Proof. exact (init_issues_defaults_run device delay l). Qed.

Lemma init_issues_reset_then_defaults_witness :
  __init__ (mock bench) default_delay [] =
  (inr {| smu := mock bench |},
   [ Write "smua.reset()";
     Write "smua.source.func = 1";
     Write "smua.source.levelv = 0";
     Write "smua.measure.autorangei = 1";
     Write "smua.measure.autorangev = 1";
     Write "smua.source.output = 0";
     Write "smua.measure.delay = 0.1" ]).
Proof.
  apply (init_issues_reset_then_defaults (mock bench) default_delay []).
  intros l' cmd. reflexivity.
Defined.

(** ** Destruction *)

(** C1, as the code has it. [__del__] issues the output-off write, then the
    reset write, then closes the transport, each step only when the one
    before returned: a write that raises ends the teardown there, and the
    exception leaves [__del__]. *)
Theorem del_teardown_sequence (self : Keithley2600) (l : log) :
  __del__ self l =
  match write_result (smu self) l "smua.source.output = 0" with
  | Some e => (inl e, (l ++ [Write "smua.source.output = 0"])%list)
  | None =>
      let l1 := (l ++ [Write "smua.source.output = 0"])%list in
      match write_result (smu self) l1 "smua.reset()" with
      | Some e =>
          (inl e,
           (l ++ [Write "smua.source.output = 0"; Write "smua.reset()"])%list)
      | None =>
          (unit_outcome (close_result (smu self) (l1 ++ [Write "smua.reset()"])%list),
           (l ++ [Write "smua.source.output = 0"; Write "smua.reset()"; Close])%list)
      end
  end.
Proof.
  unfold __del__, output_setter, reset_device, int_, bind, ret, write, close.
  change ("smua.source.output = " ++ Py.str_of_int (Z.b2z false))
    with "smua.source.output = 0".
  destruct (write_result (smu self) l "smua.source.output = 0") as [e |];
    cbn [unit_outcome]; [reflexivity |].
  destruct (write_result (smu self) _ "smua.reset()") as [e |];
    cbn [unit_outcome]; rewrite <- ?app_assoc; reflexivity.
Qed.

(** C1 as the specification words it does not hold: when the output-off
    write times out, neither the reset nor the close is issued, although the
    transport would have taken both. *)
Lemma del_stops_at_failed_write :
  __del__ {| smu := first_call_times_out |} [] =
    (inl timeout, [Write "smua.source.output = 0"])
  /\ ~ In (Write "smua.reset()") (snd (__del__ {| smu := first_call_times_out |} []))
  /\ ~ In Close (snd (__del__ {| smu := first_call_times_out |} []))
  /\ write_result first_call_times_out [Write "smua.source.output = 0"]
       "smua.reset()" = None.
Proof.
  repeat split; try reflexivity.
  - cbn. intros [H | []]. discriminate H.
  - cbn. intros [H | []]. discriminate H.
Qed.

(** ** The paired measurement *)

Lemma measure_iv_run clock self l dtext secs text :
  let trigger := "ireading, vreading = smua.measure.iv()" in
  let l1 := (l ++ [Write trigger])%list in
  let l2 := (l1 ++ [Query "print(smua.measure.delay)"])%list in
  let l3 := (l2 ++ [Sleep secs])%list in
  write_result (smu self) l trigger = None ->
  query_result (smu self) l1 "print(smua.measure.delay)" = inr dtext ->
  Py.float_of_string (Py.strip dtext) = Some secs ->
  clock l2 secs = None ->
  query_result (smu self) l3 "printnumber(ireading,vreading)" = inr text ->
  measure_iv clock self l = (pair_outcome text, (l ++ iv_calls secs)%list).
Proof.
  intros trigger l1 l2 l3 Hw Hd Hf Hc Hq.
  unfold measure_iv, delay.
  rewrite (bind_ok _ _ l tt l1) by (now apply write_accepted).
  rewrite (bind_ok _ _ l1 secs l2).
  2:{ rewrite float_getter_run, Hd, Hf. reflexivity. }
  rewrite (bind_ok _ _ l2 tt l3) by (unfold sleep; now rewrite Hc).
  rewrite (bind_ok _ _ l3 text (l3 ++ [Query "printnumber(ireading,vreading)"])%list)
    by (now apply query_answered).
  replace (l3 ++ [Query "printnumber(ireading,vreading)"])%list
    with (l ++ iv_calls secs)%list
    by (unfold l3, l2, l1, iv_calls; now rewrite <- !app_assoc).
  unfold pair_outcome, bind, getitem, float_, ret, raise.
  destruct (Py.split "," text) as [| t0 rest]; cbn [nth_error]; [reflexivity |].
  destruct (Py.float_of_string t0) as [i |]; [| reflexivity].
  destruct rest as [| t1 rest]; cbn [nth_error]; [reflexivity |].
  destruct (Py.float_of_string t1) as [v |]; reflexivity.
Qed.

(** C3, as the code has it. When the trigger write is accepted, the query
    of the measure delay answers a number, the wait of that duration
    returns, and the query of the paired reading answers [1.0e-3,2.5], then
    [measure_iv] returns the floats 0.001 and 2.5, current first. *)
Theorem measure_iv_canned_pair clock self l dtext secs :
  let trigger := "ireading, vreading = smua.measure.iv()" in
  let l1 := (l ++ [Write trigger])%list in
  let l2 := (l1 ++ [Query "print(smua.measure.delay)"])%list in
  let l3 := (l2 ++ [Sleep secs])%list in
  write_result (smu self) l trigger = None ->
  query_result (smu self) l1 "print(smua.measure.delay)" = inr dtext ->
  Py.float_of_string (Py.strip dtext) = Some secs ->
  clock l2 secs = None ->
  query_result (smu self) l3 "printnumber(ireading,vreading)" = inr "1.0e-3,2.5" ->
  fst (measure_iv clock self l) = inr (literal "0.001", literal "2.5")
  /\ literal "0.001" = S754_finite false 4611686018427388 (-62)
  /\ literal "2.5" = S754_finite false 5629499534213120 (-51).
Proof.
  intros trigger l1 l2 l3 Hw Hd Hf Hc Hq.
  rewrite (measure_iv_run clock self l dtext secs "1.0e-3,2.5" Hw Hd Hf Hc Hq).
  repeat split; vm_compute; reflexivity.
Qed.

Lemma measure_iv_canned_pair_witness :
  fst (measure_iv wall_clock {| smu := mock bench |} []) =
    inr (literal "0.001", literal "2.5")
  /\ literal "0.001" = S754_finite false 4611686018427388 (-62)
  /\ literal "2.5" = S754_finite false 5629499534213120 (-51).
Proof.
  apply (measure_iv_canned_pair wall_clock {| smu := mock bench |} []
           "1.00000e-01" (literal "0.1"));
    vm_compute; reflexivity.
Defined.

(** C3 as the specification words it does not hold: a transport that
    answers [1.0e-3,2.5] to every query, the paired one included, makes
    [measure_iv] raise [ValueError] before the paired query is sent, because
    the delay getter reads the same answer as one float. *)
Lemma measure_iv_constant_mock_raises :
  query_result (mock (fun _ => "1.0e-3,2.5")) [] "printnumber(ireading,vreading)"
    = inr "1.0e-3,2.5"
  /\ measure_iv wall_clock {| smu := mock (fun _ => "1.0e-3,2.5") |} [] =
       (inl ValueError,
        [ Write "ireading, vreading = smua.measure.iv()";
          Query "print(smua.measure.delay)" ]).
Proof. split; vm_compute; reflexivity. Qed.




(** ** Getters *)

(** Every getter sends the one query of its attribute and reads the answer
    as [reading_of] says; the log grows by that query whatever happens. *)
Lemma getattr_run p self l :
  getattr p self l =
  (match query_result (smu self) l (query_command p) with
   | inl e => inl e
   | inr response => decode (reading_of p) response
   end, (l ++ [Query (query_command p)])%list).
Proof.
  destruct p; cbn [getattr reading_of];
    unfold output, source_function, nplc, delay, range_i, range_v, autorange_i,
      autorange_v, level_v, level_i, limit_i, limit_v;
    match goal with
    | |- context [query _ ?c] =>
        change (query_command _) with c
    end;
    unfold bind, query, float_, int_float, decode, ret, raise, bool_;
    destruct (query_result (smu self) l _) as [e | response]; try reflexivity;
    destruct (Py.float_of_string (Py.strip response)) as [[s | s | | s m e] |];
    reflexivity.
Qed.

(** C4, as the code has it. Every getter sends exactly one query, that of
    its attribute. The level, limit, range, NPLC and delay getters read the
    stripped answer as a float, the output and autorange getters as a flag,
    and the [source_function] getter returns the answer as it came, a
    string. On the canned response the float getters yield 5.0, the flag
    getters [True], and [source_function] the response itself. *)
Theorem getter_reads_one_response (p : property) (self : Keithley2600) (l : log) :
  getattr p self l =
    (match query_result (smu self) l (query_command p) with
     | inl e => inl e
     | inr response => decode (reading_of p) response
     end, (l ++ [Query (query_command p)])%list)
  /\ decode (reading_of p) canned =
       match reading_of p with
       | AsFloat => inr (PyFloat (S754_finite false 5629499534213120 (-50)))
       | AsFlag => inr (PyBool true)
       | AsText => inr (PyStr canned)
       end
  /\ literal "5.0" = S754_finite false 5629499534213120 (-50).
Proof.
  split; [apply getattr_run |].
  split; [destruct p; vm_compute; reflexivity | vm_compute; reflexivity].
Qed.

(** C4 as the specification words it does not hold for [source_function]:
    on the canned response the getter returns the string, not the float
    5.0. *)
Lemma source_function_returns_text :
  getattr SourceFunction {| smu := mock (fun _ => canned) |} [] =
    (inr (PyStr canned), [Query "print(smua.source.func)"])
  /\ PyStr canned <> PyFloat (literal "5.0").
Proof. split; [vm_compute; reflexivity | discriminate]. Qed.

(** ** Flags *)

Lemma trunc_zero_iff s m e :
  Py.trunc s m e = 0 <-> abs_below_one (S754_finite s m e) = true.
Proof.
  unfold Py.trunc, abs_below_one.
  destruct e as [| k | k].
  - cbn. split; [destruct s; discriminate | discriminate].
  - assert (0 < Z.shiftl (Zpos m) (Zpos k)).
    { rewrite Z.shiftl_mul_pow2 by lia.
      apply Z.mul_pos_pos; [lia | apply Z.pow_pos_nonneg; lia]. }
    cbn [Z.ltb Z.compare andb]. split; [destruct s; lia | discriminate].
  - change (- Zneg k) with (Zpos k). change (Zneg k <? 0) with true.
    cbn [andb]. rewrite Z.shiftr_div_pow2 by lia.
    assert (Hp : 0 < 2 ^ Zpos k) by (apply Z.pow_pos_nonneg; lia).
    rewrite Z.ltb_lt.
    assert (Hd : Zpos m / 2 ^ Zpos k = 0 <-> Zpos m < 2 ^ Zpos k).
    { rewrite Z.div_small_iff by lia. lia. }
    destruct s; lia.
Qed.

(** C10. The [output], [autorange_i] and [autorange_v] getters apply
    [float], then [int], then [bool] to the stripped answer: the flag is
    [False] exactly when the truncated integer is zero, that is when the
    number is below one in magnitude, and [True] otherwise. So [0.5] and
    [0.000000E+00] read as [False], and [2] reads as [True]. *)
Theorem flag_getter_truncates (p : property) (self : Keithley2600) (l : log)
    (response : string) (x : Py.float) (z : Z) :
  reading_of p = AsFlag ->
  query_result (smu self) l (query_command p) = inr response ->
  Py.float_of_string (Py.strip response) = Some x ->
  Py.int_of_float x = Some z ->
  getattr p self l =
    (inr (PyBool (negb (z =? 0))), (l ++ [Query (query_command p)])%list)
  /\ (z = 0 <-> abs_below_one x = true)
  /\ decode AsFlag "0.5" = inr (PyBool false)
  /\ decode AsFlag "0.000000E+00" = inr (PyBool false)
  /\ decode AsFlag "2" = inr (PyBool true).
Proof.
  intros Hflag Hq Hf Hz.
  split.
  - rewrite getattr_run, Hq, Hflag. unfold decode. rewrite Hf.
    destruct x as [s | s | | s m e]; cbn in Hz; try discriminate;
      injection Hz as <-; reflexivity.
  - split; [| repeat split; vm_compute; reflexivity].
    destruct x as [s | s | | s m e]; cbn in Hz; try discriminate;
      injection Hz as <-.
    + cbn. tauto.
    + apply trunc_zero_iff.
Qed.

Lemma flag_getter_truncates_witness :
  getattr AutorangeI {| smu := mock (fun _ => "0.5") |} [] =
    (inr (PyBool false), [Query "print(smua.measure.autorangei)"])
  /\ (0 = 0 <-> abs_below_one (literal "0.5") = true)
  /\ decode AsFlag "0.5" = inr (PyBool false)
  /\ decode AsFlag "0.000000E+00" = inr (PyBool false)
  /\ decode AsFlag "2" = inr (PyBool true).
Proof.
  apply (flag_getter_truncates AutorangeI {| smu := mock (fun _ => "0.5") |} []
           "0.5" (literal "0.5") 0);
    vm_compute; reflexivity.
Defined.

(** ** The decimal numeral of an int reads back as the int *)

Lemma string_of_uint_all_digits d :
  all_digits (NilEmpty.string_of_uint d) = true.
Proof. induction d; cbn [NilEmpty.string_of_uint all_digits]; auto. Qed.

Lemma read_digits_numeral d :
  forall acc cnt,
    Py.read_digits acc cnt (NilEmpty.string_of_uint d) =
    (decimal_value acc d, cnt + Z.of_nat (Decimal.nb_digits d), EmptyString).
Proof.
  induction d; intros acc cnt;
    cbn [NilEmpty.string_of_uint Py.read_digits decimal_value Decimal.nb_digits];
    try (rewrite Z.add_0_r; reflexivity);
    change (Py.is_digit _) with true; cbn iota;
    rewrite IHd, Nat2Z.inj_succ;
    (apply f_equal2; [apply f_equal2 |]; [| lia | reflexivity]);
    apply (f_equal (fun a => decimal_value a d));
    match goal with
    | |- context [Py.digit_val ?c] =>
        let k := eval vm_compute in (Py.digit_val c) in
        change (Py.digit_val c) with k
    end; lia.
Qed.

Lemma of_uint_acc_value d :
  forall acc, Zpos (Pos.of_uint_acc d acc) = decimal_value (Zpos acc) d.
Proof.
  induction d; intros acc; cbn [Pos.of_uint_acc decimal_value];
    try reflexivity; rewrite IHd; f_equal; lia.
Qed.

Lemma of_uint_value d : Z.of_N (Pos.of_uint d) = decimal_value 0 d.
Proof.
  induction d; cbn [Pos.of_uint decimal_value]; try reflexivity;
    try (rewrite N2Z.inj_pos, of_uint_acc_value; reflexivity).
  exact IHd.
Qed.

Lemma digit_not_space c : Py.is_digit c = true -> Py.is_space c = false.
Proof.
  unfold Py.is_digit, Py.is_space. intros H.
  apply andb_prop in H as [H1 H2]. apply Z.leb_le in H1, H2.
  repeat (apply orb_false_iff; split);
    try (apply andb_false_iff);
    try (rewrite !Z.leb_gt; lia); try (apply Z.eqb_neq; lia).
Qed.

Lemma digit_not_underscore c : Py.is_digit c = true -> Ascii.eqb c "_" = false.
Proof.
  intros H. apply Ascii.eqb_neq. intros ->. discriminate H.
Qed.

Lemma strip_digits s : all_digits s = true -> Py.strip s = s.
Proof.
  intros H. unfold Py.strip.
  assert (Hl : Py.lstrip s = s).
  { destruct s as [| c r]; [reflexivity |]. cbn in *.
    apply andb_prop in H as [Hc _]. now rewrite (digit_not_space c Hc). }
  rewrite Hl. clear Hl.
  induction s as [| c r IH]; [reflexivity |]. cbn in *.
  apply andb_prop in H as [Hc Hr].
  now rewrite (digit_not_space c Hc), (IH Hr).
Qed.

Lemma strip_underscores_digits s :
  forall prev,
    all_digits s = true -> (s = EmptyString -> prev <> "_"%char) ->
    Py.strip_underscores prev s = Some s.
Proof.
  induction s as [| c r IH]; intros prev H Hp; cbn [Py.strip_underscores].
  - destruct (Ascii.eqb_spec prev "_") as [-> | _]; [now elim Hp | reflexivity].
  - cbn in H. apply andb_prop in H as [Hc Hr].
    rewrite (digit_not_underscore c Hc), Hc, andb_false_r.
    rewrite (IH c Hr); [reflexivity |].
    intros _ ->. discriminate Hc.
Qed.

Lemma nb_digits_positive d : d <> Nil -> 0 < Z.of_nat (Decimal.nb_digits d).
Proof. destruct d; intros H; try (now elim H); cbn [Decimal.nb_digits]; lia. Qed.

Lemma int_of_string_numeral d :
  d <> Nil ->
  Py.int_of_string (NilEmpty.string_of_uint d) = Some (decimal_value 0 d)
  /\ Py.int_of_string (String "-" (NilEmpty.string_of_uint d)) =
       Some (- decimal_value 0 d).
Proof.
  intros Hd.
  pose proof (string_of_uint_all_digits d) as Hall.
  pose proof (nb_digits_positive d Hd) as Hn.
  assert (Hne : NilEmpty.string_of_uint d = EmptyString -> False)
    by (destruct d; [now elim Hd | discriminate ..]).
  split; unfold Py.int_of_string.
  - rewrite (strip_digits _ Hall).
    rewrite strip_underscores_digits; [| exact Hall | intros E; now elim Hne].
    assert (Hs : Py.read_sign (NilEmpty.string_of_uint d) =
                 (false, NilEmpty.string_of_uint d))
      by (destruct d; [now elim Hd | reflexivity ..]).
    rewrite Hs, read_digits_numeral.
    replace (0 + Z.of_nat (nb_digits d) =? 0) with false
      by (symmetry; apply Z.eqb_neq; lia).
    reflexivity.
  - assert (Hst : Py.strip (String "-" (NilEmpty.string_of_uint d)) =
                  String "-" (NilEmpty.string_of_uint d)).
    { pose proof (strip_digits _ Hall) as E. unfold Py.strip in *.
      cbn [Py.lstrip]. change (Py.is_space "-") with false. cbn iota.
      cbn [Py.rstrip]. change (Py.is_space "-") with false. cbn [andb].
      f_equal.
      clear - Hall. induction (NilEmpty.string_of_uint d) as [| c r IH];
        [reflexivity |]. cbn in *.
      apply andb_prop in Hall as [Hc Hr].
      now rewrite (digit_not_space c Hc), (IH Hr). }
    rewrite Hst. cbn [Py.strip_underscores].
    change (Ascii.eqb "-" "_") with false. change (Ascii.eqb " " "_") with false.
    cbn [andb].
    rewrite strip_underscores_digits; [| exact Hall | intros E; now elim Hne].
    cbn [option_map Py.read_sign]. rewrite read_digits_numeral.
    replace (0 + Z.of_nat (nb_digits d) =? 0) with false
      by (symmetry; apply Z.eqb_neq; lia).
    reflexivity.
Qed.

(** [int(str(z)) == z]: the numeral a setter sends for an int reads back as
    that int. *)
Lemma str_of_int_reads_back (z : Z) : Py.int_of_string (Py.str_of_int z) = Some z.
Proof.
  unfold Py.str_of_int. destruct z as [| p | p].
  - reflexivity.
  - cbn [Z.to_int NilZero.string_of_int].
    pose proof (DecimalPos.Unsigned.to_uint_nonnil p) as Hnil.
    pose proof (DecimalPos.Unsigned.of_to p) as Hval.
    unfold NilZero.string_of_uint.
    destruct (int_of_string_numeral (Pos.to_uint p) Hnil) as [H _].
    rewrite <- of_uint_value, Hval in H.
    destruct (Pos.to_uint p); [now elim Hnil | exact H ..].
  - cbn [Z.to_int NilZero.string_of_int].
    pose proof (DecimalPos.Unsigned.to_uint_nonnil p) as Hnil.
    pose proof (DecimalPos.Unsigned.of_to p) as Hval.
    unfold NilZero.string_of_uint.
    destruct (int_of_string_numeral (Pos.to_uint p) Hnil) as [_ H].
    rewrite <- of_uint_value, Hval in H.
    destruct (Pos.to_uint p); [now elim Hnil | exact H ..].
Qed.

(** ** Setters *)

(** Every setter renders its argument and sends one write: the attribute,
    an equals sign, the rendered text. A flag that [int] refuses makes the
    [output] setter raise before anything is sent. *)
Lemma setattr_run p self v l :
  setattr p self v l =
  match rendering p v with
  | inr text => write (smu self) (assignment p text) l
  | inl e => (inl e, l)
  end.
Proof.
  destruct p; try reflexivity.
  cbn [setattr rendering].
  unfold output_setter, int_, int_float, bind, ret, raise.
  destruct v as [[|] | z | [s | s | | s m e] | s]; try reflexivity.
  cbn [Py.int_of_float]. destruct (Py.int_of_string s); reflexivity.
Qed.

Lemma prefix_append (s t : string) : String.prefix s (s ++ t) = true.
Proof.
  induction s as [| c s IH]; cbn.
  - now destruct t.
  - destruct (ascii_dec c c) as [_ | ne]; [exact IH | now elim ne].
Qed.



(** ** Setup routines *)

Lemma bind_ext {A B} (m : M A) (k k' : A -> M B) l :
  (forall a l', k a l' = k' a l') -> bind m k l = bind m k' l.
Proof.
  intros H. unfold bind. destruct (m l) as [[e | a] l']; [reflexivity | apply H].
Qed.

Lemma bind_ret_tt (m : M unit) l : bind m (fun _ => ret tt) l = m l.
Proof. unfold bind, ret. now destruct (m l) as [[e | []] l']. Qed.

Lemma run_primitive_log self step l :
  exists ext, snd (run_primitive self step l) = (l ++ ext)%list
              /\ Forall primitive_call ext.
Proof.
  destruct step as [| p v]; cbn [run_primitive].
  - exists [Write "smua.reset()"]. split; [reflexivity |].
    constructor; [now left | constructor].
  - rewrite setattr_run. destruct (rendering p v) as [e | text].
    + exists []. split; [now rewrite app_nil_r | constructor].
    + exists [Write (property_path p ++ " = " ++ text)]. split; [reflexivity |].
      constructor; [right; now exists p, text | constructor].
Qed.

Lemma run_primitives_log self steps :
  forall l, exists ext, snd (run_primitives self steps l) = (l ++ ext)%list
                        /\ Forall primitive_call ext.
Proof.
  induction steps as [| step rest IH]; intros l; cbn [run_primitives].
  - exists []. split; [now rewrite app_nil_r | constructor].
  - destruct (run_primitive_log self step l) as (ext1 & H1 & F1).
    unfold bind. destruct (run_primitive self step l) as [[e | []] l1];
      cbn [snd] in H1; subst l1.
    + now exists ext1.
    + destruct (IH (l ++ ext1)%list) as (ext2 & H2 & F2).
      exists (ext1 ++ ext2)%list. split.
      * now rewrite H2, app_assoc.
      * apply Forall_app. now split.
Qed.

(** C5, as the code has it. [setup_for_IV_measurement] is the reset followed
    by six property assignments, and every call it makes is the reset
    command or the assignment of a property.
    [setup_for_resistance_measurement] first sends the raw command
    [smua.measure.r(smua.nvbuffer1)] to the transport and then runs the reset
    followed by seven property assignments. *)
Theorem setup_routines_as_primitive_steps (self : Keithley2600)
    (iLimit NPLC : pyvalue) (l : log) :
  setup_for_IV_measurement self iLimit NPLC l =
    run_primitives self (iv_steps iLimit NPLC) l
  /\ (exists ext,
        snd (setup_for_IV_measurement self iLimit NPLC l) = (l ++ ext)%list
        /\ Forall primitive_call ext)
  /\ setup_for_resistance_measurement self l =
       (write (smu self) "smua.measure.r(smua.nvbuffer1)" ;;
        run_primitives self resistance_steps) l.
Proof.
  assert (Hiv : setup_for_IV_measurement self iLimit NPLC l =
                run_primitives self (iv_steps iLimit NPLC) l).
  { unfold setup_for_IV_measurement, iv_steps.
    cbn [run_primitives run_primitive setattr].
    repeat (apply bind_ext; intros _ ?).
    symmetry. apply bind_ret_tt. }
  split; [exact Hiv |].
  split; [rewrite Hiv; apply run_primitives_log |].
  unfold setup_for_resistance_measurement, resistance_steps.
  cbn [run_primitives run_primitive setattr].
  repeat (apply bind_ext; intros _ ?).
  symmetry. apply bind_ret_tt.
Qed.

(** The commands of the two routines on a transport that accepts them. *)
Lemma setup_for_resistance_measurement_commands :
  setup_for_resistance_measurement {| smu := mock bench |} [] =
  (inr tt,
   [ Write "smua.measure.r(smua.nvbuffer1)";
     Write "smua.reset()";
     Write "smua.source.func = 0";
     Write "smua.source.leveli = 0.001";
     Write "smua.measure.autorangev = 1";
     Write "smua.measure.nplc = 5";
     Write "smua.measure.delay = 0.1";
     Write "smua.measure.rangev = 20";
     Write "smua.measure.rangei = 0.001" ]).
Proof. vm_compute. reflexivity. Qed.

Lemma setup_for_IV_measurement_commands :
  setup_for_IV_measurement {| smu := mock bench |}
    (PyFloat (literal "1e-5")) (PyInt 10) [] =
  (inr tt,
   [ Write "smua.reset()";
     Write "smua.source.func = 1";
     Write "smua.source.levelv = 0";
     Write "smua.measure.autorangei = 1";
     Write "smua.measure.autorangev = 1";
     Write "smua.source.limiti = 1e-05";
     Write "smua.measure.nplc = 10" ]).
Proof. vm_compute. reflexivity. Qed.

(** C5 as the specification words it does not hold: the first command of
    [setup_for_resistance_measurement] is neither the reset command nor the
    assignment any setter sends, whatever its argument. *)
Lemma resistance_setup_sends_raw_command :
  nth_error (snd (setup_for_resistance_measurement {| smu := mock bench |} [])) 0 =
    Some (Write "smua.measure.r(smua.nvbuffer1)")
  /\ "smua.measure.r(smua.nvbuffer1)" <> "smua.reset()"
  /\ (forall p text,
        "smua.measure.r(smua.nvbuffer1)" <> property_path p ++ " = " ++ text).
Proof.
  split; [vm_compute; reflexivity |].
  split; [discriminate |].
  intros p text. destruct p; cbn; discriminate.
Qed.

(** ** Responses that do not parse *)

Lemma split_nonempty c s : Py.split c s <> [].
Proof.
  destruct s as [| d r]; cbn; [discriminate |].
  destruct (Ascii.eqb d c); [discriminate |].
  destruct (Py.split c r); discriminate.
Qed.





(** ** No value of the instrument is kept on the session *)

(** A session, a second session opened on the same transport with another
    delay, and a paired measurement through the first one. *)
Lemma wait_follows_the_instrument :
  (first <- __init__ instrument (PyFloat (literal "0.1")) ;;
   measure_iv wall_clock first) [] =
    (inr (literal "0.001", literal "2.5"),
     (init_calls (PyFloat (literal "0.1")) ++ iv_calls (literal "0.1"))%list)
  /\ (first <- __init__ instrument (PyFloat (literal "0.1")) ;;
      _ <- __init__ instrument (PyFloat (literal "0.5")) ;;
      measure_iv wall_clock first) [] =
       (inr (literal "0.001", literal "2.5"),
        (init_calls (PyFloat (literal "0.1"))
         ++ init_calls (PyFloat (literal "0.5"))
         ++ iv_calls (literal "0.5"))%list).
Proof. split; vm_compute; reflexivity. Qed.



(** * Further properties of the class *)

(** ** Whitespace around a response *)

Lemma lstrip_all_space w : all_space w = true -> Py.lstrip w = EmptyString.
Proof.
  induction w as [| c r IH]; cbn; [reflexivity |].
  intros H. apply andb_prop in H as [Hc Hr]. now rewrite Hc, IH.
Qed.

Lemma rstrip_all_space w : all_space w = true -> Py.rstrip w = EmptyString.
Proof.
  induction w as [| c r IH]; cbn; [reflexivity |].
  intros H. apply andb_prop in H as [Hc Hr]. now rewrite Hc, (IH Hr).
Qed.

Lemma lstrip_app_space w s :
  all_space w = true -> Py.lstrip (w ++ s) = Py.lstrip s.
Proof.
  induction w as [| c r IH]; cbn; [reflexivity |].
  intros H. apply andb_prop in H as [Hc Hr]. now rewrite Hc, IH.
Qed.

Lemma rstrip_app_space s w :
  all_space w = true -> Py.rstrip (s ++ w) = Py.rstrip s.
Proof.
  intros Hw. induction s as [| c r IH]; cbn.
  - now apply rstrip_all_space.
  - now rewrite IH.
Qed.

Lemma strip_app_space s w :
  all_space w = true -> Py.strip (s ++ w) = Py.strip s.
Proof.
  intros Hw. unfold Py.strip. induction s as [| c r IH]; cbn.
  - now rewrite (lstrip_all_space w Hw).
  - destruct (Py.is_space c); [exact IH |].
    apply (rstrip_app_space (String c r) w Hw).
Qed.

Lemma strip_padding w1 s w2 :
  all_space w1 = true -> all_space w2 = true ->
  Py.strip (w1 ++ s ++ w2) = Py.strip s.
Proof.
  intros H1 H2. unfold Py.strip. rewrite (lstrip_app_space w1 _ H1).
  apply (strip_app_space s w2 H2).
Qed.

Lemma rstrip_keeps_head c r :
  Py.is_space c = false -> exists r', Py.rstrip (String c r) = String c r'.
Proof. intros H. cbn. rewrite H. now eexists. Qed.

Lemma rstrip_idempotent s : Py.rstrip (Py.rstrip s) = Py.rstrip s.
Proof.
  induction s as [| c r IH]; cbn; [reflexivity |].
  destruct (Py.is_space c && Py.is_empty (Py.rstrip r)) eqn:E; [reflexivity |].
  cbn. now rewrite IH, E.
Qed.

Lemma strip_idempotent s : Py.strip (Py.strip s) = Py.strip s.
Proof.
  unfold Py.strip.
  assert (H : Py.lstrip (Py.rstrip (Py.lstrip s)) = Py.rstrip (Py.lstrip s)).
  { induction s as [| c r IH]; [reflexivity |]. cbn [Py.lstrip].
    destruct (Py.is_space c) eqn:E; [exact IH |].
    destruct (rstrip_keeps_head c r E) as [r' ->]. cbn. now rewrite E. }
  rewrite H. apply rstrip_idempotent.
Qed.

(** [float] strips its argument itself. *)
Lemma float_of_string_strip s :
  Py.float_of_string (Py.strip s) = Py.float_of_string s.
Proof. unfold Py.float_of_string. now rewrite strip_idempotent. Qed.


(** X1. Whitespace before and after a response (spaces, tabs, carriage
    returns, line feeds) never changes what a float getter, a flag getter,
    [measure_resistance] or [measure_power] returns or raises. *)
Theorem readings_ignore_surrounding_whitespace
    (p : property) (self self' : Keithley2600) (l l' : log)
    (response w1 w2 : string) :
  all_space w1 = true -> all_space w2 = true ->
  (reading_of p <> AsText ->
   query_result (smu self) l (query_command p) = inr response ->
   query_result (smu self') l' (query_command p) = inr (w1 ++ response ++ w2) ->
   fst (getattr p self' l') = fst (getattr p self l))
  /\ (query_result (smu self) l "print(smua.measure.r())" = inr response ->
      query_result (smu self') l' "print(smua.measure.r())"
        = inr (w1 ++ response ++ w2) ->
      fst (measure_resistance self' l') = fst (measure_resistance self l))
  /\ (query_result (smu self) l "print(smua.measure.p())" = inr response ->
      query_result (smu self') l' "print(smua.measure.p())"
        = inr (w1 ++ response ++ w2) ->
      fst (measure_power self' l') = fst (measure_power self l)).
Proof.
  intros H1 H2. split; [| split].
  - intros Hk Hq Hq'. rewrite !getattr_run, Hq, Hq'. cbn [fst].
    destruct (reading_of p); [| | now elim Hk];
      unfold decode; now rewrite strip_padding.
  - intros Hq Hq'. unfold measure_resistance.
    rewrite !float_getter_run, Hq, Hq'. cbn [fst]. now rewrite strip_padding.
  - intros Hq Hq'. unfold measure_power.
    rewrite !float_getter_run, Hq, Hq'. cbn [fst]. now rewrite strip_padding.
Qed.

Lemma readings_ignore_surrounding_whitespace_witness :
  fst (getattr LevelV {| smu := mock (fun _ => canned) |} []) =
  fst (getattr LevelV {| smu := mock (fun _ => "5.000000E+00") |} []).
Proof.
  destruct (readings_ignore_surrounding_whitespace LevelV
              {| smu := mock (fun _ => "5.000000E+00") |}
              {| smu := mock (fun _ => canned) |} [] []
              "5.000000E+00" "" (String "010" EmptyString)
              eq_refl eq_refl) as [H _].
  apply H; [discriminate | reflexivity | reflexivity].
Defined.

(** ** The tokens of a paired response *)







(** ** Exceptions end a method *)

Section FailStop.

Variable dev : Resource.
Variable clock : Clock.

Lemma stops_retype {A B} l ext e :
  stops_at_failure dev clock l ext (inl e : result A) ->
  stops_at_failure dev clock l ext (inl e : result B).
Proof.
  revert l. induction ext as [| c rest IH]; intros l; cbn; [trivial |].
  destruct (call_outcome dev clock l c) as [e' |].
  - intros [-> E]. split; [reflexivity |]. congruence.
  - apply IH.
Qed.

Lemma stops_app {A B} l ext1 ext2 (a : A) (r : result B) :
  stops_at_failure dev clock l ext1 (inr a : result A) ->
  stops_at_failure dev clock (l ++ ext1)%list ext2 r ->
  stops_at_failure dev clock l (ext1 ++ ext2)%list r.
Proof.
  revert l. induction ext1 as [| c rest IH]; intros l; cbn.
  - intros _. now rewrite app_nil_r.
  - destruct (call_outcome dev clock l c) as [e |].
    + intros [_ E]. discriminate E.
    + intros H1 H2. apply IH; [exact H1 |]. now rewrite <- app_assoc.
Qed.

Lemma fail_stop_ret {A} (a : A) : fail_stop dev clock (ret a).
Proof. intros l. exists []. cbn. now rewrite app_nil_r. Qed.

Lemma fail_stop_raise {A} e : fail_stop dev clock (raise e : M A).
Proof. intros l. exists []. cbn. now rewrite app_nil_r. Qed.

Lemma fail_stop_bind {A B} (m : M A) (k : A -> M B) :
  fail_stop dev clock m -> (forall a, fail_stop dev clock (k a)) ->
  fail_stop dev clock (bind m k).
Proof.
  intros Hm Hk l. destruct (Hm l) as (ext1 & E1 & S1). unfold bind.
  destruct (m l) as [[e | a] l1]; cbn [fst snd] in *; subst l1.
  - exists ext1. split; [reflexivity |]. now apply (@stops_retype A B).
  - destruct (Hk a (l ++ ext1)%list) as (ext2 & E2 & S2).
    exists (ext1 ++ ext2)%list. split.
    + now rewrite E2, app_assoc.
    + now apply (stops_app l ext1 ext2 a).
Qed.

Lemma fail_stop_write cmd : fail_stop dev clock (write dev cmd).
Proof.
  intros l. exists [Write cmd]. split; [reflexivity |]. cbn.
  destruct (write_result dev l cmd); cbn; auto.
Qed.

Lemma fail_stop_query cmd : fail_stop dev clock (query dev cmd).
Proof.
  intros l. exists [Query cmd]. split; [reflexivity |]. cbn.
  destruct (query_result dev l cmd); cbn; auto.
Qed.

Lemma fail_stop_read : fail_stop dev clock (read dev).
Proof.
  intros l. exists [Read]. split; [reflexivity |]. cbn.
  destruct (read_result dev l); cbn; auto.
Qed.

Lemma fail_stop_close : fail_stop dev clock (close dev).
Proof.
  intros l. exists [Close]. split; [reflexivity |]. cbn.
  destruct (close_result dev l); cbn; auto.
Qed.

Lemma fail_stop_sleep secs : fail_stop dev clock (sleep clock secs).
Proof.
  intros l. exists [Sleep secs]. split; [reflexivity |]. cbn.
  destruct (clock l secs); cbn; auto.
Qed.

Lemma fail_stop_float s : fail_stop dev clock (float_ s).
Proof.
  unfold float_. destruct (Py.float_of_string s);
    [apply fail_stop_ret | apply fail_stop_raise].
Qed.

Lemma fail_stop_int_float x : fail_stop dev clock (int_float x).
Proof.
  unfold int_float.
  destruct x; cbn; try apply fail_stop_ret; apply fail_stop_raise.
Qed.

Lemma fail_stop_int v : fail_stop dev clock (int_ v).
Proof.
  destruct v as [b | z | x | s]; cbn [int_];
    try apply fail_stop_ret; [apply fail_stop_int_float |].
  destruct (Py.int_of_string s); [apply fail_stop_ret | apply fail_stop_raise].
Qed.

Lemma fail_stop_getitem xs i : fail_stop dev clock (getitem xs i).
Proof.
  unfold getitem. destruct (nth_error xs i);
    [apply fail_stop_ret | apply fail_stop_raise].
Qed.

End FailStop.

Ltac fail_stop_steps :=
  repeat first
    [ apply fail_stop_bind; [| intros ?]
    | apply fail_stop_write | apply fail_stop_query | apply fail_stop_read
    | apply fail_stop_close | apply fail_stop_sleep | apply fail_stop_float
    | apply fail_stop_int_float | apply fail_stop_int | apply fail_stop_getitem
    | apply fail_stop_ret | apply fail_stop_raise ].

Lemma fail_stop_getattr clock p self : fail_stop (smu self) clock (getattr p self).
Proof.
  destruct p; cbn [getattr];
    unfold output, source_function, nplc, delay, range_i, range_v, autorange_i,
      autorange_v, level_v, level_i, limit_i, limit_v;
    fail_stop_steps.
Qed.

Lemma fail_stop_setattr clock p self v :
  fail_stop (smu self) clock (setattr p self v).
Proof.
  destruct p; cbn [setattr];
    unfold output_setter, source_function_setter, nplc_setter, delay_setter,
      range_i_setter, range_v_setter, autorange_i_setter, autorange_v_setter,
      level_v_setter, level_i_setter, limit_i_setter, limit_v_setter;
    fail_stop_steps.
Qed.

(** X3. In every method of the class, a call on the transport or on the
    clock that raises is the last call the method makes, and the method
    raises that very exception: nothing is retried, nothing is sent after a
    failure, no exception is replaced by another. *)
Theorem methods_stop_at_first_failure (clock : Clock) (self : Keithley2600) :
  fail_stop (smu self) clock (measure_resistance self)
  /\ fail_stop (smu self) clock (measure_power self)
  /\ fail_stop (smu self) clock (measure_iv clock self)
  /\ fail_stop (smu self) clock (reset_device self)
  /\ fail_stop (smu self) clock (device_id self)
  /\ (forall p, fail_stop (smu self) clock (getattr p self))
  /\ (forall p v, fail_stop (smu self) clock (setattr p self v))
  /\ fail_stop (smu self) clock (default_setup self)
  /\ fail_stop (smu self) clock (setup_for_resistance_measurement self)
  /\ (forall iLimit NPLC,
        fail_stop (smu self) clock (setup_for_IV_measurement self iLimit NPLC))
  /\ (forall delay, fail_stop (smu self) clock (__init__ (smu self) delay))
  /\ fail_stop (smu self) clock (__del__ self).
Proof.
  repeat split; intros;
    try apply fail_stop_getattr; try apply fail_stop_setattr;
    unfold measure_resistance, measure_power, measure_iv, reset_device,
      device_id, default_setup, setup_for_resistance_measurement,
      setup_for_IV_measurement, __init__, __del__, delay,
      output_setter, source_function_setter, nplc_setter, delay_setter,
      range_i_setter, range_v_setter, autorange_i_setter, autorange_v_setter,
      level_v_setter, level_i_setter, limit_i_setter, limit_v_setter,
      reset_device; cbn [smu];
    fail_stop_steps.
Qed.

(** ** What the methods never send *)

Section Only.

Variable P : call -> bool.

Lemma only_ret {A} (a : A) : only P (ret a).
Proof. intros l. exists []. cbn. now rewrite app_nil_r. Qed.

Lemma only_raise {A} e : only P (raise e : M A).
Proof. intros l. exists []. cbn. now rewrite app_nil_r. Qed.

Lemma only_bind {A B} (m : M A) (k : A -> M B) :
  only P m -> (forall a, only P (k a)) -> only P (bind m k).
Proof.
  intros Hm Hk l. destruct (Hm l) as (ext1 & E1 & F1). unfold bind.
  destruct (m l) as [[e | a] l1]; cbn [snd] in *; subst l1.
  - now exists ext1.
  - destruct (Hk a (l ++ ext1)%list) as (ext2 & E2 & F2).
    exists (ext1 ++ ext2)%list. split.
    + now rewrite E2, app_assoc.
    + now rewrite forallb_app, F1, F2.
Qed.

Lemma only_bind_ret {A B} (a : A) (k : A -> M B) :
  only P (k a) -> only P (bind (ret a) k).
Proof. intros H l. exact (H l). Qed.

Lemma only_call {A} (c : call) (r : log -> result A) :
  P c = true -> only P (fun l => (r l, (l ++ [c])%list)).
Proof. intros H l. exists [c]. cbn. now rewrite H. Qed.

Lemma only_write dev cmd : P (Write cmd) = true -> only P (write dev cmd).
Proof. apply only_call. Qed.

Lemma only_query dev cmd : P (Query cmd) = true -> only P (query dev cmd).
Proof. apply only_call. Qed.

Lemma only_read dev : P Read = true -> only P (read dev).
Proof. apply only_call. Qed.

Lemma only_close dev : P Close = true -> only P (close dev).
Proof. apply only_call. Qed.

Lemma only_sleep clock secs : P (Sleep secs) = true -> only P (sleep clock secs).
Proof. apply only_call. Qed.

Lemma only_float s : only P (float_ s).
Proof.
  unfold float_. destruct (Py.float_of_string s); [apply only_ret | apply only_raise].
Qed.

Lemma only_int_float x : only P (int_float x).
Proof.
  unfold int_float. destruct x; cbn; try apply only_ret; apply only_raise.
Qed.

Lemma only_int v : only P (int_ v).
Proof.
  destruct v as [b | z | x | s]; cbn [int_];
    try apply only_ret; [apply only_int_float |].
  destruct (Py.int_of_string s); [apply only_ret | apply only_raise].
Qed.

Lemma only_getitem xs i : only P (getitem xs i).
Proof.
  unfold getitem. destruct (nth_error xs i); [apply only_ret | apply only_raise].
Qed.

Lemma only_lift {A} (r : result A) : only P (lift r).
Proof. intros l. exists []. cbn. now rewrite app_nil_r. Qed.

End Only.

Ltac only_steps :=
  repeat first
    [ apply only_ret | apply only_raise
    | match goal with
      | |- only _ (bind (ret _) _) => apply only_bind_ret
      end
    | apply only_bind; [| intros ?]
    | apply only_write; reflexivity
    | apply only_query; reflexivity
    | apply only_read; reflexivity
    | apply only_close; reflexivity
    | apply only_sleep; reflexivity
    | apply only_float | apply only_int_float | apply only_int
    | apply only_getitem | apply only_lift ].

Ltac unfold_methods :=
  cbn [setattr getattr];
  unfold __init__, __del__, setup_for_resistance_measurement,
    setup_for_IV_measurement;
  unfold default_setup, measure_resistance, measure_power, measure_iv, device_id;
  unfold output, source_function, nplc, delay, range_i, range_v, autorange_i,
    autorange_v, level_v, level_i, limit_i, limit_v,
    output_setter, source_function_setter, nplc_setter, delay_setter,
    range_i_setter, range_v_setter, autorange_i_setter, autorange_v_setter,
    level_v_setter, level_i_setter, limit_i_setter, limit_v_setter,
    reset_device; cbn [smu int_].

(** X4. Whatever the transport does and whatever the arguments are, the
    configuration methods ([reset_device], every setter, [default_setup],
    the two setup routines and [__init__]) only write to the transport: they
    never query, read, close or wait. Every getter, [measure_resistance] and
    [measure_power] only query. [measure_iv] and [device_id] never close the
    transport; [__del__] is the one method that does. *)
Theorem methods_keep_to_their_calls (clock : Clock) (self : Keithley2600) :
  only is_write (reset_device self)
  /\ (forall p v, only is_write (setattr p self v))
  /\ only is_write (default_setup self)
  /\ only is_write (setup_for_resistance_measurement self)
  /\ (forall iLimit NPLC, only is_write (setup_for_IV_measurement self iLimit NPLC))
  /\ (forall delay, only is_write (__init__ (smu self) delay))
  /\ (forall p, only is_query (getattr p self))
  /\ only is_query (measure_resistance self)
  /\ only is_query (measure_power self)
  /\ only keeps_open (measure_iv clock self)
  /\ only keeps_open (device_id self)
  /\ In Close (snd (__del__ {| smu := mock bench |} [])).
Proof.
  repeat split; intros; try (destruct p; cbn [setattr getattr]);
    match goal with
    | |- In _ _ => vm_compute; auto 10
    | _ => unfold_methods; only_steps
    end.
Qed.

Lemma str_of_int_zero z : String.eqb (Py.str_of_int z) "0" = (z =? 0).
Proof.
  destruct (Z.eqb_spec z 0) as [-> | Hz]; [reflexivity |].
  apply String.eqb_neq. intros E.
  pose proof (str_of_int_reads_back z) as R. rewrite E in R.
  apply Hz. now injection R.
Qed.


(** ** An integer setting survives the text *)

Lemma digits2_lower_bound p :
  2 ^ (Zpos (digits2_pos p) - 1) <= Zpos p.
Proof.
  induction p as [p IH | p IH |]; cbn [digits2_pos].
  - rewrite Pos2Z.inj_succ.
    replace (Z.succ (Zpos (digits2_pos p)) - 1) with (Z.succ (Zpos (digits2_pos p) - 1)) by lia.
    rewrite Z.pow_succ_r by lia. lia.
  - rewrite Pos2Z.inj_succ.
    replace (Z.succ (Zpos (digits2_pos p)) - 1) with (Z.succ (Zpos (digits2_pos p) - 1)) by lia.
    rewrite Z.pow_succ_r by lia. lia.
  - reflexivity.
Qed.

Lemma digits2_at_most p n :
  0 <= n -> Zpos p < 2 ^ n -> Zpos (digits2_pos p) <= n.
Proof.
  intros Hn Hp. pose proof (digits2_lower_bound p) as Hl.
  destruct (Z.le_gt_cases (Zpos (digits2_pos p)) n) as [H | H]; [exact H |].
  assert (2 ^ n <= 2 ^ (Zpos (digits2_pos p) - 1))
    by (apply Z.pow_le_mono_r; lia).
  lia.
Qed.

Lemma iter_xO_value p d : Zpos (Pos.iter xO p d) = Zpos p * 2 ^ Zpos d.
Proof.
  induction d as [| d IH] using Pos.peano_ind.
  - cbn. lia.
  - rewrite Pos.iter_succ, Pos2Z.inj_succ, Z.pow_succ_r by lia.
    rewrite Pos2Z.inj_xO, IH. lia.
Qed.

Lemma iter_xO_digits p d :
  digits2_pos (Pos.iter xO p d) = (digits2_pos p + d)%positive.
Proof.
  induction d as [| d IH] using Pos.peano_ind.
  - cbn. lia.
  - rewrite Pos.iter_succ. cbn [digits2_pos]. rewrite IH. lia.
Qed.

Lemma binary_round_aux_exact s m e :
  Zpos (digits2_pos m) = 53 -> -1074 <= e <= 971 ->
  binary_round_aux Py.prec Py.emax s (Zpos m) e loc_Exact = S754_finite s m e.
Proof.
  intros Hm He.
  assert (Hf : fexp Py.prec Py.emax (Zdigits2 (Zpos m) + e) - e = 0).
  { unfold fexp, emin, Py.prec, Py.emax. change (Zdigits2 (Zpos m)) with (Zpos (digits2_pos m)).
    rewrite Hm. lia. }
  unfold binary_round_aux, shr_fexp. rewrite Hf.
  cbn [shr shr_record_of_loc loc_of_shr_record shr_m round_nearest_even].
  rewrite Hf. cbn [shr shr_record_of_loc shr_m].
  replace (e <=? Py.emax - Py.prec) with true
    by (symmetry; apply Z.leb_le; unfold Py.emax, Py.prec; lia).
  reflexivity.
Qed.

(** Rounding an integer below [2^53] to a double loses nothing. *)
Lemma binary_round_small_integer s p :
  Zpos p < 2 ^ 53 ->
  exists m e,
    binary_round Py.prec Py.emax s p 0 = S754_finite s m e
    /\ Py.trunc s m e = if s then Zneg p else Zpos p.
Proof.
  intros Hp.
  pose proof (digits2_at_most p 53 ltac:(lia) Hp) as Hd.
  assert (Hpos : 0 < Zpos (digits2_pos p)) by lia.
  unfold binary_round, shl_align.
  assert (Hf : fexp Py.prec Py.emax (Zpos (digits2_pos p) + 0) =
               Zpos (digits2_pos p) - 53)
    by (unfold fexp, emin, Py.prec, Py.emax; lia).
  rewrite Hf.
  destruct (Zpos (digits2_pos p) - 53 - 0) as [| q | q] eqn:Eq; try lia.
  - exists p, 0. split.
    + apply binary_round_aux_exact; lia.
    + unfold Py.trunc. rewrite Z.shiftl_0_r. now destruct s.
  - assert (Hq : Zpos q = 53 - Zpos (digits2_pos p)) by lia.
    exists (Pos.iter xO p q), (Zpos (digits2_pos p) - 53). split.
    + apply binary_round_aux_exact; [| lia].
      rewrite iter_xO_digits. lia.
    + unfold Py.trunc.
      replace (Zpos (digits2_pos p) - 53) with (Zneg q) by lia.
      rewrite Z.shiftr_div_pow2 by lia. rewrite iter_xO_value.
      rewrite Z.div_mul by (apply Z.pow_nonzero; lia). now destruct s.
Qed.

Lemma lower_digit c : Py.is_digit c = true -> Py.lower c = c.
Proof.
  unfold Py.is_digit, Py.lower. intros H.
  apply andb_prop in H as [H1 H2]. apply Z.leb_le in H1, H2.
  replace (65 <=? Py.code c) with false by (symmetry; apply Z.leb_gt; lia).
  reflexivity.
Qed.

Lemma digits_are_no_word r c w :
  all_digits r = true -> r <> EmptyString -> Py.is_digit c = false ->
  String.eqb (Py.lower_string r) (String c w) = false.
Proof.
  destruct r as [| d r']; [now intros _ H |]. intros H _ Hc. cbn in *.
  apply andb_prop in H as [Hd _]. rewrite (lower_digit d Hd).
  replace (Ascii.eqb d c) with false; [reflexivity |].
  symmetry. apply Ascii.eqb_neq. intros ->. congruence.
Qed.

Lemma parse_decimal_numeral d :
  d <> Nil ->
  Py.parse_decimal (NilEmpty.string_of_uint d) = Some (decimal_value 0 d, 0).
Proof.
  intros Hd. pose proof (nb_digits_positive d Hd) as Hn.
  unfold Py.parse_decimal. rewrite read_digits_numeral. cbv beta iota.
  replace (0 + Z.of_nat (nb_digits d) + 0 =? 0) with false
    by (symmetry; apply Z.eqb_neq; lia).
  reflexivity.
Qed.

Lemma float_of_numeral d :
  d <> Nil ->
  Py.float_of_string (NilEmpty.string_of_uint d) =
    Some (Py.round_decimal false (decimal_value 0 d) 0)
  /\ Py.float_of_string (String "-" (NilEmpty.string_of_uint d)) =
       Some (Py.round_decimal true (decimal_value 0 d) 0).
Proof.
  intros Hd.
  pose proof (string_of_uint_all_digits d) as Hall.
  assert (Hne : NilEmpty.string_of_uint d <> EmptyString)
    by (destruct d; [now elim Hd | discriminate ..]).
  assert (Hinf : forall c w, Py.is_digit c = false ->
            String.eqb (Py.lower_string (NilEmpty.string_of_uint d)) (String c w) = false)
    by (intros c w Hc; now apply digits_are_no_word).
  split; unfold Py.float_of_string.
  - rewrite (strip_digits _ Hall).
    rewrite strip_underscores_digits; [| exact Hall | intros E; now elim Hne].
    assert (Hs : Py.read_sign (NilEmpty.string_of_uint d) =
                 (false, NilEmpty.string_of_uint d))
      by (destruct d; [now elim Hd | reflexivity ..]).
    rewrite Hs. cbv beta iota zeta.
    rewrite !Hinf by reflexivity. cbn [orb].
    now rewrite (parse_decimal_numeral d Hd).
  - assert (Hst : Py.strip (String "-" (NilEmpty.string_of_uint d)) =
                  String "-" (NilEmpty.string_of_uint d)).
    { unfold Py.strip. cbn [Py.lstrip]. change (Py.is_space "-") with false.
      cbn iota. cbn [Py.rstrip]. change (Py.is_space "-") with false. cbn [andb].
      f_equal.
      clear - Hall. induction (NilEmpty.string_of_uint d) as [| c r IH];
        [reflexivity |]. cbn in *.
      apply andb_prop in Hall as [Hc Hr].
      now rewrite (digit_not_space c Hc), (IH Hr). }
    rewrite Hst. cbn [Py.strip_underscores].
    change (Ascii.eqb "-" "_") with false. change (Ascii.eqb " " "_") with false.
    cbn [andb].
    rewrite strip_underscores_digits; [| exact Hall | intros E; now elim Hne].
    cbn [option_map Py.read_sign]. cbv beta iota zeta.
    rewrite !Hinf by reflexivity. cbn [orb].
    now rewrite (parse_decimal_numeral d Hd).
Qed.

(** [float(str(z))] is the double nearest to [z], and [z] itself below
    [2^53]. *)
Lemma float_of_int_text z :
  Z.abs z < 2 ^ 53 ->
  exists x, Py.float_of_string (Py.str_of_int z) = Some x
            /\ Py.int_of_float x = Some z
            /\ decode AsFlag (Py.str_of_int z) = inr (PyBool (negb (z =? 0))).
Proof.
  intros Hz. unfold Py.str_of_int. destruct z as [| p | p].
  - exists (S754_zero false). repeat split; reflexivity.
  - cbn [Z.to_int NilZero.string_of_int].
    pose proof (DecimalPos.Unsigned.to_uint_nonnil p) as Hnil.
    pose proof (DecimalPos.Unsigned.of_to p) as Hval.
    destruct (float_of_numeral (Pos.to_uint p) Hnil) as [H _].
    rewrite <- of_uint_value, Hval in H.
    assert (Ht : NilZero.string_of_uint (Pos.to_uint p) =
                 NilEmpty.string_of_uint (Pos.to_uint p))
      by (unfold NilZero.string_of_uint; destruct (Pos.to_uint p);
          [now elim Hnil | reflexivity ..]).
    rewrite Ht.
    destruct (binary_round_small_integer false p Hz) as (m & e & Hb & Htr).
    assert (Hx : Py.float_of_string (NilEmpty.string_of_uint (Pos.to_uint p)) =
                 Some (S754_finite false m e)).
    { rewrite H. unfold Py.round_decimal. cbn [Z.of_N].
      change (0 <=? 0) with true. cbv iota.
      rewrite Z.pow_0_r, Z.mul_1_r. now rewrite Hb. }
    exists (S754_finite false m e). split; [exact Hx |].
    split; [cbn [Py.int_of_float]; now rewrite Htr |].
    unfold decode. rewrite float_of_string_strip, Hx, Htr. reflexivity.
  - cbn [Z.to_int NilZero.string_of_int].
    pose proof (DecimalPos.Unsigned.to_uint_nonnil p) as Hnil.
    pose proof (DecimalPos.Unsigned.of_to p) as Hval.
    destruct (float_of_numeral (Pos.to_uint p) Hnil) as [_ H].
    rewrite <- of_uint_value, Hval in H.
    assert (Ht : NilZero.string_of_uint (Pos.to_uint p) =
                 NilEmpty.string_of_uint (Pos.to_uint p))
      by (unfold NilZero.string_of_uint; destruct (Pos.to_uint p);
          [now elim Hnil | reflexivity ..]).
    rewrite Ht.
    destruct (binary_round_small_integer true p Hz) as (m & e & Hb & Htr).
    assert (Hx : Py.float_of_string
                   (String "-" (NilEmpty.string_of_uint (Pos.to_uint p))) =
                 Some (S754_finite true m e)).
    { rewrite H. unfold Py.round_decimal. cbn [Z.of_N].
      change (0 <=? 0) with true. cbv iota.
      rewrite Z.pow_0_r, Z.mul_1_r. now rewrite Hb. }
    exists (S754_finite true m e). split; [exact Hx |].
    split; [cbn [Py.int_of_float]; now rewrite Htr |].
    unfold decode. rewrite float_of_string_strip, Hx, Htr. reflexivity.
Qed.

(** X6. The text a setter sends for an int [z] with [|z| < 2^53] is read
    back without loss: a float getter given that text as the response
    returns a float whose integer value is [z], a flag getter returns
    [z != 0], and [source_function] returns the text. *)
Theorem integer_setting_reads_back (p q : property) (self self' : Keithley2600)
    (l l' : log) (z : Z) :
  Z.abs z < 2 ^ 53 ->
  query_result (smu self') l' (query_command q) = inr (Py.str_of_int z) ->
  snd (setattr p self (PyInt z) l) =
    (l ++ [Write (property_path p ++ " = " ++ Py.str_of_int z)])%list
  /\ exists x,
       Py.int_of_float x = Some z
       /\ fst (getattr q self' l') =
            match reading_of q with
            | AsFloat => inr (PyFloat x)
            | AsFlag => inr (PyBool (negb (z =? 0)))
            | AsText => inr (PyStr (Py.str_of_int z))
            end.
Proof.
  intros Hz Hq. split.
  - rewrite setattr_run.
    replace (rendering p (PyInt z)) with (inr (Py.str_of_int z) : result string)
      by (now destruct p).
    reflexivity.
  - destruct (float_of_int_text z Hz) as (x & Hx & Hi & Hflag).
    exists x. split; [exact Hi |].
    rewrite getattr_run, Hq. cbn [fst].
    destruct (reading_of q); [| exact Hflag | reflexivity].
    unfold decode. now rewrite float_of_string_strip, Hx.
Qed.

Lemma integer_setting_reads_back_witness :
  snd (setattr RangeV {| smu := mock bench |} (PyInt 20) []) =
    [Write "smua.measure.rangev = 20"]
  /\ exists x,
       Py.int_of_float x = Some 20
       /\ fst (getattr RangeV {| smu := mock (fun _ => "20") |} []) =
            inr (PyFloat x).
Proof.
  apply (integer_setting_reads_back RangeV RangeV {| smu := mock bench |}
           {| smu := mock (fun _ => "20") |} [] [] 20);
    [vm_compute; reflexivity | reflexivity].
Defined.

(** ** What a getter can return and raise *)

(** X7. Once its query is answered, a getter ends in one of these ways and
    no other. A float getter returns a float (an infinity or a NaN
    included) or raises [ValueError], the latter exactly when [float]
    refuses the response. A flag getter returns a boolean, [False] exactly
    for a number below one in magnitude, or raises [ValueError] (response
    refused, or a NaN) or [OverflowError] (an infinity). [source_function]
    returns the response as a string and never raises. *)
Theorem getter_outcomes (p : property) (self : Keithley2600) (l : log)
    (response : string) :
  query_result (smu self) l (query_command p) = inr response ->
  match fst (getattr p self l) with
  | inr (PyFloat x) =>
      reading_of p = AsFloat
      /\ Py.float_of_string (Py.strip response) = Some x
  | inr (PyBool b) =>
      reading_of p = AsFlag
      /\ exists x, Py.float_of_string (Py.strip response) = Some x
                   /\ Py.int_of_float x <> None
                   /\ b = negb (abs_below_one x)
  | inr (PyStr s) => reading_of p = AsText /\ s = response
  | inr (PyInt _) => False
  | inl ValueError =>
      (reading_of p <> AsText
       /\ Py.float_of_string (Py.strip response) = None)
      \/ (reading_of p = AsFlag
          /\ Py.float_of_string (Py.strip response) = Some S754_nan)
  | inl OverflowError =>
      reading_of p = AsFlag
      /\ exists s, Py.float_of_string (Py.strip response) = Some (S754_infinity s)
  | inl _ => False
  end.
Proof.
  intros Hq. rewrite getattr_run, Hq. cbn [fst].
  destruct (reading_of p) eqn:Ek; unfold decode.
  - destruct (Py.float_of_string (Py.strip response)) as [x |].
    + now split.
    + left. split; [discriminate | reflexivity].
  - destruct (Py.float_of_string (Py.strip response)) as [[s | s | | s m e] |].
    + split; [reflexivity |]. exists (S754_zero s).
      repeat split; discriminate.
    + split; [reflexivity |]. now exists s.
    + right. now split.
    + split; [reflexivity |]. exists (S754_finite s m e).
      split; [reflexivity |]. split; [discriminate |].
      f_equal. apply eq_true_iff_eq. rewrite Z.eqb_eq. apply trunc_zero_iff.
    + left. split; [discriminate | reflexivity].
  - now split.
Qed.

Lemma getter_outcomes_witness :
  fst (getattr Output {| smu := mock (fun _ => "inf") |} []) = inl OverflowError
  /\ exists s, Py.float_of_string (Py.strip "inf") = Some (S754_infinity s).
Proof.
  pose proof (getter_outcomes Output {| smu := mock (fun _ => "inf") |} []
                "inf" eq_refl) as H.
  change (fst (getattr Output {| smu := mock (fun _ => "inf") |} []))
    with (inl OverflowError : result pyvalue) in H.
  split; [reflexivity | exact (proj2 H)].
Defined.

(** ** The script *)

(** X8. The script uses the first resource the manager lists and no other:
    it opens it, constructs a session with the default delay and assigns
    the source current level 1 mA, eight writes in all on a transport that
    accepts them. With no resource listed it raises [IndexError] before
    anything is opened or sent, and a failure to list or to open leaves the
    script with that exception and nothing sent. *)
Theorem main_configures_first_resource (rm : ResourceManager) (l : log)
    (name : string) (others : list string) (dev : Resource) :
  list_resources rm = inr (name :: others) ->
  open_resource rm name = inr dev ->
  (forall l' cmd, write_result dev l' cmd = None) ->
  main rm l =
    (inr {| smu := dev |},
     (l ++ [ Write "smua.reset()";
             Write "smua.source.func = 1";
             Write "smua.source.levelv = 0";
             Write "smua.measure.autorangei = 1";
             Write "smua.measure.autorangev = 1";
             Write "smua.source.output = 0";
             Write "smua.measure.delay = 0.1";
             Write "smua.source.leveli = 0.001" ])%list)
  /\ (forall open, main {| list_resources := inr []; open_resource := open |} l =
                   (inl IndexError, l))
  /\ (forall e open, main {| list_resources := inl e; open_resource := open |} l =
                     (inl e, l))
  /\ (forall e, main {| list_resources := inr (name :: others);
                        open_resource := fun _ => inl e |} l = (inl e, l)).
Proof.
  intros Hl Ho accepts. split; [| repeat split].
  unfold main, lift, getitem, bind. rewrite Hl. cbn [nth_error ret].
  rewrite Ho, (init_issues_defaults_run dev default_delay l accepts).
  unfold level_i_setter, write, ret. cbn [smu]. rewrite accepts. cbn [unit_outcome].
  rewrite <- app_assoc. reflexivity.
Qed.

Lemma main_configures_first_resource_witness :
  main {| list_resources := inr ["GPIB0::26::INSTR"; "ASRL1::INSTR"];
          open_resource := fun _ => inr (mock bench) |} [] =
    (inr {| smu := mock bench |},
     [ Write "smua.reset()";
       Write "smua.source.func = 1";
       Write "smua.source.levelv = 0";
       Write "smua.measure.autorangei = 1";
       Write "smua.measure.autorangev = 1";
       Write "smua.source.output = 0";
       Write "smua.measure.delay = 0.1";
       Write "smua.source.leveli = 0.001" ]).
Proof.
  apply (main_configures_first_resource
           {| list_resources := inr ["GPIB0::26::INSTR"; "ASRL1::INSTR"];
              open_resource := fun _ => inr (mock bench) |}
           [] "GPIB0::26::INSTR" ["ASRL1::INSTR"] (mock bench));
    reflexivity.
Defined.

(** ** Commands do not collide *)

Lemma append_inv_head (s a b : string) : s ++ a = s ++ b -> a = b.
Proof.
  induction s as [| c r IH]; cbn; [trivial |].
  intros H. injection H as H. now apply IH.
Qed.

Lemma str_of_int_injective z z' : Py.str_of_int z = Py.str_of_int z' -> z = z'.
Proof.
  intros E. pose proof (str_of_int_reads_back z) as R.
  rewrite E, str_of_int_reads_back in R. now injection R.
Qed.

Lemma assignment_injective p p' t t' :
  property_path p ++ " = " ++ t = property_path p' ++ " = " ++ t' ->
  p = p' /\ t = t'.
Proof.
  destruct p, p'; cbn [property_path]; intros H;
    try (cbn in H; discriminate H);
    (split; [reflexivity |]);
    match type of H with
    | ?s ++ " = " ++ _ = _ =>
        apply (append_inv_head s) in H; now apply (append_inv_head " = ") in H
    end.
Qed.

(** X9. Two assignments of ints send the same command only when they set
    the same property to the same int: a setter's command tells which
    property it sets and to which integer. *)
Theorem integer_commands_are_distinct (p p' : property) (self : Keithley2600)
    (z z' : Z) (l : log) :
  snd (setattr p self (PyInt z) l) = snd (setattr p' self (PyInt z') l) ->
  p = p' /\ z = z'.
Proof.
  rewrite !setattr_run.
  replace (rendering p (PyInt z)) with (inr (Py.str_of_int z) : result string)
    by (now destruct p).
  replace (rendering p' (PyInt z')) with (inr (Py.str_of_int z') : result string)
    by (now destruct p').
  unfold write, assignment. cbn [snd]. intros H.
  apply app_inv_head in H. injection H as H.
  apply assignment_injective in H as [-> H]. split; [reflexivity |].
  now apply str_of_int_injective.
Qed.

Lemma integer_commands_are_distinct_witness :
  LevelV = LevelV /\ 5 = 5.
Proof.
  apply (integer_commands_are_distinct LevelV LevelV {| smu := mock bench |}
           5 5 []).
  reflexivity.
Defined.

(** ** A float given as the output flag *)

(** X10. The [output] setter converts its flag with [int], not with
    [bool]: a float flag is truncated towards zero before it is sent, so the
    output is enabled exactly when the magnitude of the flag is at least
    one, and a flag such as 0.5 switches the output off. A NaN or an
    infinite flag raises and nothing is sent. *)
Theorem output_flag_is_truncated (self : Keithley2600) (l : log) (x : Py.float) :
  match Py.int_of_float x with
  | Some z =>
      snd (setattr Output self (PyFloat x) l) =
        (l ++ [Write ("smua.source.output = " ++ Py.str_of_int z)])%list
      /\ enables_output (Write ("smua.source.output = " ++ Py.str_of_int z)) =
           negb (abs_below_one x)
  | None =>
      setattr Output self (PyFloat x) l =
        (inl (match x with S754_nan => ValueError | _ => OverflowError end), l)
  end.
Proof.
  rewrite setattr_run.
  assert (He : forall z,
            enables_output (Write ("smua.source.output = " ++ Py.str_of_int z)) =
            negb (z =? 0)).
  { intros z. unfold enables_output. rewrite prefix_append. cbn [andb].
    change (("smua.source.output = " ++ Py.str_of_int z
             =? "smua.source.output = 0")%string)
      with ((Py.str_of_int z =? "0")%string).
    now rewrite str_of_int_zero. }
  destruct x as [s | s | | s m e]; cbn [Py.int_of_float rendering].
  - split; [reflexivity |]. now rewrite He.
  - reflexivity.
  - reflexivity.
  - split; [reflexivity |]. rewrite He. f_equal.
    apply eq_true_iff_eq. rewrite Z.eqb_eq. apply trunc_zero_iff.
Qed.

Example output_flag_one_half :
  setattr Output {| smu := mock bench |} (PyFloat (literal "0.5")) [] =
    (inr tt, [Write "smua.source.output = 0"])
  /\ setattr Output {| smu := mock bench |} (PyFloat (literal "-2.7")) [] =
       (inr tt, [Write "smua.source.output = -2"])
  /\ setattr Output {| smu := mock bench |} (PyFloat (literal "nan")) [] =
       (inl ValueError, []).
Proof. repeat split; vm_compute; reflexivity. Qed.
